(** * Subscription service: handlers, domain service and SQL repository

    A shallow embedding of the three layers of the service
    (internal/router/handlers, internal/service, internal/repository)
    together with the data shapes of internal/models, followed by the
    properties of the validation, the status mapping and the summary
    query.

    Conventions.
    - A Go [error] is a value carrying its message; [option error] is a
      possibly-nil error, [None] being [nil].
    - A pointer field that is only tested against [nil] and dereferenced
      ([*string], [*uuid.UUID]) is an [option].
    - Go's [int] fields are integers of [Z]; the Go code never does
      arithmetic on them, it only compares a price with zero.
    - Logging is omitted: it has no influence on responses or on the store. *)

From Stdlib Require Import ZArith NArith List Bool Ascii String Lia.
Import ListNotations.

Local Open Scope string_scope.
Local Open Scope Z_scope.

(** ** Errors and identifiers *)

(** [errors.New(msg)] and [fmt.Errorf]: an error is its message. *)
Record error : Type := errorString { Error : string }.

Definition errors_New (msg : string) : error := errorString msg.

(** [fmt.Errorf("<context>: %w", err)]. *)
Definition Errorf_wrap (context : string) (err : error) : error :=
  errorString (context ++ ": " ++ Error err).

(** [uuid.UUID] is a [16]byte array; it is represented by the 128-bit
    number whose big-endian bytes it holds. *)
Definition UUID : Type := N.

(** [uuid.Nil], the all-zero identifier. *)
Definition uuid_Nil : UUID := 0%N.

Definition uuid_eqb (a b : UUID) : bool := N.eqb a b.

(** ** internal/models *)

Module models.

Record Subscription : Type := mkSubscription {
  ID : UUID;
  ServiceName : string;
  Price : Z;
  UserID : UUID;
  StartDate : string;
  EndDate : option string
}.

Record SubReq : Type := mkSubReq {
  req_ServiceName : string;
  req_Price : Z;
  req_UserID : UUID;
  req_StartDate : string;
  req_EndDate : option string
}.

(** [time.Time], as far as the service reads it: the civil reading of the
    instant in the value's own location, and that location's offset east
    of UTC in seconds.  Go stores the instant and derives the reading;
    the two determine each other. *)
Record Time : Type := mkTime {
  year : Z;
  month : Z;
  day : Z;
  hour : Z;
  minute : Z;
  second : Z;
  nanosecond : Z;
  zone_offset : Z
}.

Record GetSummaryReq : Type := mkGetSummaryReq {
  sreq_ServiceName : string;
  sreq_From : Time;
  sreq_To : Time;
  sreq_UserID : option UUID
}.

Record GetSummary : Type := mkGetSummary {
  From : string;
  To : string;
  sum_UserID : option UUID;
  sum_ServiceName : string
}.

Record SubscriptionFilter : Type := mkSubscriptionFilter {
  flt_UserID : option UUID;
  flt_ServiceName : option string
}.

(** The values of type [interface{}] that the handlers put in
    [Response.Data]. *)
Inductive any : Type :=
| DataNil
| DataSubscription (sub : Subscription)
| DataSubscriptions (subs : list Subscription)
| DataTotal (Total : Z).

Record Response : Type := mkResponse {
  Status : Z;
  Msg : string;
  Data : any
}.

End models.
Import models.

(** ** The [time] package, for the layout ["01-2006"] *)

Module time.

Definition isDigit (c : ascii) : bool :=
  (48 <=? nat_of_ascii c)%nat && (nat_of_ascii c <=? 57)%nat.

Definition digit_val (c : ascii) : Z := Z.of_nat (nat_of_ascii c) - 48.

(** One decimal digit as a character ([tensDigits]/[onesDigits] lookups
    and ['0' + u%10]). *)
Definition digit_char (d : Z) : ascii := ascii_of_nat (Z.to_nat (48 + d)).

(** [getnum(s, fixed=true)]: exactly two leading digits. *)
Definition getnum_fixed (s : string) : option (Z * string) :=
  match s with
  | String a (String b rest) =>
      if isDigit a && isDigit b
      then Some (digit_val a * 10 + digit_val b, rest)
      else None
  | _ => None
  end.

(** [skip(value, "-")]. *)
Definition skip_dash (value : string) : option string :=
  match value with
  | String c rest => if Ascii.eqb c "-" then Some rest else None
  | EmptyString => None
  end.

(** [leadingInt] followed by the emptiness test of [atoi] on a string
    whose first byte is known to be a digit: every byte is a digit. *)
Fixpoint atoi_digits (acc : Z) (p : string) : option Z :=
  match p with
  | EmptyString => Some acc
  | String c rest =>
      if isDigit c then atoi_digits (acc * 10 + digit_val c) rest else None
  end.

(** The [stdLongYear] case: at least four bytes, the first a digit, and
    the first four read by [atoi]. *)
Definition get_long_year (value : string) : option (Z * string) :=
  match value with
  | String a (String b (String c (String d rest))) =>
      if isDigit a
      then match atoi_digits 0 (String a (String b (String c (String d "")))) with
           | Some y => Some (y, rest)
           | None => None
           end
      else None
  | _ => None
  end.

(** [time.Parse("01-2006", value)].  The layout has the chunks
    [stdZeroMonth], the literal ["-"], [stdLongYear], and then nothing, so
    remaining text is an error.  Day, clock and zone default to the first
    of the month, midnight, UTC.  [None] stands for a non-nil error. *)
Definition Parse_01_2006 (value : string) : option Time :=
  match getnum_fixed value with
  | None => None
  | Some (m, value1) =>
      if (m <=? 0) || (12 <? m) then None
      else
        match skip_dash value1 with
        | None => None
        | Some value2 =>
            match get_long_year value2 with
            | None => None
            | Some (y, value3) =>
                match value3 with
                | EmptyString => Some (mkTime y m 1 0 0 0 0 0)
                | String _ _ => None
                end
            end
        end
  end.

(** Decimal digits of [u], most significant first; [fuel] bounds the
    number of digits produced. *)
Fixpoint utoa (fuel : nat) (u : Z) : string :=
  match fuel with
  | O => ""
  | S fuel' =>
      (if u / 10 =? 0 then "" else utoa fuel' (u / 10))
        ++ String (digit_char (u mod 10)) ""
  end.

Fixpoint zeros (n : nat) : string :=
  match n with
  | O => ""
  | S n' => String "0" (zeros n')
  end.

(** [appendInt(b, x, width)], returning the appended bytes: a sign for a
    negative [x], the two fast paths for widths 2 and 4, and otherwise
    zero padding up to [width] digits. *)
Definition appendInt (x : Z) (width : Z) : string :=
  let sign := if x <? 0 then "-" else "" in
  let u := Z.abs x in
  if (width =? 2) && (u <? 100) then
    sign ++ String (digit_char (u / 10)) (String (digit_char (u mod 10)) "")
  else if (width =? 4) && (u <? 10000) then
    sign ++ String (digit_char (u / 100 / 10))
              (String (digit_char ((u / 100) mod 10))
                 (String (digit_char ((u mod 100) / 10))
                    (String (digit_char ((u mod 100) mod 10)) "")))
  else
    let digits := utoa (S (Z.to_nat (Z.log2 u))) u in
    sign ++ zeros (Z.to_nat width - String.length digits) ++ digits.

(** [t.Format("01-2006")]: the month of the civil reading on two digits,
    a dash, the year on at least four. *)
Definition Format_01_2006 (t : Time) : string :=
  appendInt (month t) 2 ++ "-" ++ appendInt (year t) 4.

(** Days from 0001-01-01 to the given proleptic Gregorian date. *)
Definition days_since_epoch (y m d : Z) : Z :=
  let y' := if m <=? 2 then y - 1 else y in
  let era := y' / 400 in
  let yoe := y' - era * 400 in
  let doy := (153 * (if 2 <? m then m - 3 else m + 9) + 2) / 5 + d - 1 in
  era * 146097 + (yoe * 365 + yoe / 4 - yoe / 100 + doy) - 306.

(** Seconds from January 1, year 1, 00:00:00 UTC to the instant of [t]. *)
Definition abs_seconds (t : Time) : Z :=
  days_since_epoch (year t) (month t) (day t) * 86400
  + hour t * 3600 + minute t * 60 + second t - zone_offset t.

(** [t.IsZero()]: the instant is January 1, year 1, 00:00:00 UTC. *)
Definition IsZero (t : Time) : bool :=
  (abs_seconds t =? 0) && (nanosecond t =? 0).

(** The zero value [time.Time{}]. *)
Definition zero : Time := mkTime 1 1 1 0 0 0 0 0.

End time.

(** ** internal/repository *)

Module repository.

(** The [*sql.DB] handle together with what is behind it: the rows of
    table [subscriptions], in the store's order, and the fate of the
    coming round trips.  Each statement or query is one round trip and
    consumes the head of [outages]; [true] there is a connectivity
    failure of that round trip, and an exhausted list means no further
    failure. *)
Record DB : Type := mkDB {
  table : list Subscription;
  outages : list bool
}.

(** The driver's part of a round trip: a failure, or the statement
    reaches the store. *)
Definition round_trip (db : DB) : option error * DB :=
  match outages db with
  | [] => (None, db)
  | failed :: rest =>
      ((if failed then Some (errors_New "db error") else None),
       mkDB (table db) rest)
  end.

(** SQL's [SUM] over the selected values is [NULL] on no row, and
    [COALESCE(x, 0)] replaces [NULL] by [0]. *)
Definition sql_SUM (values : list Z) : option Z :=
  match values with
  | [] => None
  | _ :: _ => Some (fold_right Z.add 0 values)
  end.

Definition COALESCE (x : option Z) (default : Z) : Z :=
  match x with
  | Some v => v
  | None => default
  end.

(** [$n::uuid IS NULL OR column = $n] and [$n::text IS NULL OR column = $n]
    for a nullable parameter. *)
Definition null_or_uuid (param : option UUID) (column : UUID) : bool :=
  match param with
  | None => true
  | Some v => uuid_eqb column v
  end.

Definition null_or_text (param : option string) (column : string) : bool :=
  match param with
  | None => true
  | Some v => String.eqb column v
  end.

Section Store.

(** The store's ordering of [text] values, [a <= b] under the collation
    of the database. *)
Variable text_le : string -> string -> bool.

(** The constraints that the schema of table [subscriptions] puts on its
    contents, kept abstract in the operations (those of the migration are
    [migrations.schema] below): a statement whose resulting table
    violates them fails and changes nothing. *)
Variable schema_ok : list Subscription -> bool.

(** The [SET] clause of [UpdateSubs] applied to one row, with the
    positional parameters [$1..$4]. *)
Definition update_set (p1 : string) (p2 : Z) (p3 : string) (p4 : option string)
    (row : Subscription) : Subscription :=
  mkSubscription (ID row) p1 p2 (UserID row) p3 p4.

(** The [UPDATE ... WHERE id = $5] statement on the table. *)
Definition update_stmt (p1 : string) (p2 : Z) (p3 : string) (p4 : option string)
    (p5 : UUID) (rows : list Subscription) : list Subscription :=
  map (fun row => if uuid_eqb (ID row) p5 then update_set p1 p2 p3 p4 row else row)
      rows.

(** The [WHERE] clause of [ListSubs], parameters [$1], [$2]. *)
Definition list_where (p1 : option UUID) (p2 : option string)
    (row : Subscription) : bool :=
  null_or_uuid p1 (UserID row) && null_or_text p2 (ServiceName row).

(** The [WHERE] clause of [GetSummary], parameters [$1..$4]:
      ($1::text = '' OR start_date <= $1) AND
      ($2::text = '' OR end_date >= $2 OR end_date IS NULL) AND
      ($3::uuid IS NULL OR user_id = $3) AND
      ($4::text = '' OR service_name = $4)
    A comparison with a [NULL] end date is unknown and the disjunction
    is decided by [end_date IS NULL]. *)
Definition summary_where (p1 p2 : string) (p3 : option UUID) (p4 : string)
    (row : Subscription) : bool :=
  (String.eqb p1 "" || text_le (StartDate row) p1)
  && (String.eqb p2 ""
      || match EndDate row with
         | Some end_date => text_le p2 end_date
         | None => true
         end)
  && null_or_uuid p3 (UserID row)
  && (String.eqb p4 "" || String.eqb (ServiceName row) p4).

Definition CreateSubs (subs : Subscription) (db : DB) : option error * DB :=
  match round_trip db with
  | (Some err, db') => (Some (Errorf_wrap "failed to create subscription" err), db')
  | (None, db') =>
      let rows := (table db' ++ [subs])%list in
      if schema_ok rows
      then (None, mkDB rows (outages db'))
      else (Some (Errorf_wrap "failed to create subscription"
                    (errors_New "constraint violation")), db')
  end.

Definition UpdateSubs (id : UUID) (newSubs : Subscription) (db : DB)
    : option error * DB :=
  match round_trip db with
  | (Some err, db') => (Some (Errorf_wrap "failed to update subscription" err), db')
  | (None, db') =>
      let rows := update_stmt (ServiceName newSubs) (Price newSubs)
                    (StartDate newSubs) (EndDate newSubs) id (table db') in
      if existsb (fun row => uuid_eqb (ID row) id) (table db')
         && negb (schema_ok rows)
      then (Some (Errorf_wrap "failed to update subscription"
                    (errors_New "constraint violation")), db')
      else (None, mkDB rows (outages db'))
  end.

Definition SubscriptionExists (id : UUID) (db : DB) : (bool * option error) * DB :=
  match round_trip db with
  | (Some err, db') =>
      ((false, Some (Errorf_wrap "error checking subscription existence" err)), db')
  | (None, db') =>
      ((existsb (fun row => uuid_eqb (ID row) id) (table db'), None), db')
  end.

Definition DeleteSubs (id : UUID) (db : DB) : option error * DB :=
  match round_trip db with
  | (Some err, db') => (Some (Errorf_wrap "failed to delete subscription" err), db')
  | (None, db') =>
      (None, mkDB (filter (fun row => negb (uuid_eqb (ID row) id)) (table db'))
               (outages db'))
  end.

Definition ListSubs (filter_ : SubscriptionFilter) (db : DB)
    : (list Subscription * option error) * DB :=
  match round_trip db with
  | (Some err, db') => (([], Some (Errorf_wrap "failed to query subscriptions" err)), db')
  | (None, db') =>
      ((filter (list_where (flt_UserID filter_) (flt_ServiceName filter_)) (table db'),
        None), db')
  end.

(** The query is run with the arguments [sum.To, sum.From, sum.UserID,
    sum.ServiceName], in this order, for [$1..$4]. *)
Definition GetSummary (sum : models.GetSummary) (db : DB) : (Z * option error) * DB :=
  match round_trip db with
  | (Some err, db') => ((0, Some (Errorf_wrap "failed to calculate summary" err)), db')
  | (None, db') =>
      let selected :=
        filter (summary_where (To sum) (From sum) (sum_UserID sum) (sum_ServiceName sum))
               (table db') in
      ((COALESCE (sql_SUM (map Price selected)) 0, None), db')
  end.

(** [LIMIT 1]: the first matching row; [sql.ErrNoRows] when there is
    none. *)
Definition GetSub (id : UUID) (db : DB) : (option Subscription * option error) * DB :=
  match round_trip db with
  | (Some err, db') => ((None, Some (Errorf_wrap "database error" err)), db')
  | (None, db') =>
      match find (fun row => uuid_eqb (ID row) id) (table db') with
      | Some sub => ((Some sub, None), db')
      | None => ((None, Some (errors_New "subscription not found")), db')
      end
  end.

End Store.

(** The regular expression [^\d{2}-\d{4}$] of the [CHECK] constraints on
    [start_date] and [end_date]: two digits, a dash, four digits. *)
Definition date_pattern (s : string) : bool :=
  match s with
  | String a (String b (String dash (String c (String d (String e (String f ""))))))
    => time.isDigit a && time.isDigit b && Ascii.eqb dash "-"
       && time.isDigit c && time.isDigit d && time.isDigit e && time.isDigit f
  | _ => false
  end.

(** [id UUID PRIMARY KEY]: no two rows have the same id. *)
Fixpoint unique_ids (rows : list Subscription) : bool :=
  match rows with
  | [] => true
  | row :: rest =>
      negb (existsb (fun other => uuid_eqb (ID other) (ID row)) rest)
      && unique_ids rest
  end.

End repository.

(** ** The migration of table [subscriptions] *)

Module migrations.

(** The largest value of an [INTEGER] column. *)
Definition INTEGER_max : Z := 2147483647.

(** A text without the byte 0, which the store refuses in every
    encoding. *)
Fixpoint no_NUL (s : string) : bool :=
  match s with
  | EmptyString => true
  | String c rest => negb (Nat.eqb (nat_of_ascii c) 0) && no_NUL rest
  end.

(** A text of ASCII characters other than NUL: the store accepts it as a
    parameter in every encoding, and its characters are its bytes. *)
Fixpoint ascii_text (s : string) : bool :=
  match s with
  | EmptyString => true
  | String c rest =>
      (1 <=? nat_of_ascii c)%nat && (nat_of_ascii c <=? 127)%nat && ascii_text rest
  end.

(** The column constraints of
      service_name VARCHAR(255) NOT NULL,
      price INTEGER NOT NULL CHECK (price > 0),
      start_date VARCHAR(7) NOT NULL CHECK (start_date ~ '^\d{2}-\d{4}$'),
      end_date VARCHAR(7) CHECK (end_date ~ '^\d{2}-\d{4}$')
    on one row.  Texts are sequences of bytes here; a text is taken to be
    valid in the encoding of the database when it has no byte 0, and a
    character is counted as one byte, which is exact for ASCII service
    names and stricter than the store otherwise. *)
Definition row_ok (row : Subscription) : bool :=
  no_NUL (ServiceName row)
  && (String.length (ServiceName row) <=? 255)%nat
  && (0 <? Price row)
  && (Price row <=? INTEGER_max)
  && repository.date_pattern (StartDate row)
  && match EndDate row with
     | Some end_date => repository.date_pattern end_date
     | None => true
     end.

(** The constraints on the table: those of the columns and
    [id UUID PRIMARY KEY]. *)
Definition schema (rows : list Subscription) : bool :=
  forallb row_ok rows && repository.unique_ids rows.

End migrations.

(** ** internal/service *)

Module service.

(** The interface [Subsrepository]: what the service needs of a
    repository whose state has type [R].  A method takes the state and
    returns its results with the new state. *)
Record Subsrepository (R : Type) : Type := mkSubsrepository {
  r_CreateSubs : Subscription -> R -> option error * R;
  r_UpdateSubs : UUID -> Subscription -> R -> option error * R;
  r_DeleteSubs : UUID -> R -> option error * R;
  r_ListSubs : SubscriptionFilter -> R -> (list Subscription * option error) * R;
  r_GetSummary : models.GetSummary -> R -> (Z * option error) * R;
  r_GetSub : UUID -> R -> (option Subscription * option error) * R;
  r_SubscriptionExists : UUID -> R -> (bool * option error) * R
}.

Arguments r_CreateSubs {R}.
Arguments r_UpdateSubs {R}.
Arguments r_DeleteSubs {R}.
Arguments r_ListSubs {R}.
Arguments r_GetSummary {R}.
Arguments r_GetSub {R}.
Arguments r_SubscriptionExists {R}.

(** [repository.Repository] implements the interface. *)
Definition Repository (text_le : string -> string -> bool)
    (schema_ok : list Subscription -> bool) : Subsrepository repository.DB :=
  {| r_CreateSubs := repository.CreateSubs schema_ok;
     r_UpdateSubs := repository.UpdateSubs schema_ok;
     r_DeleteSubs := repository.DeleteSubs;
     r_ListSubs := repository.ListSubs;
     r_GetSummary := repository.GetSummary text_le;
     r_GetSub := repository.GetSub;
     r_SubscriptionExists := repository.SubscriptionExists |}.

Section SubscriptionService.

Context {R : Type}.

(** The field [repository] of [SubscriptionService]. *)
Variable repository : Subsrepository R.

Definition CreateSubs (subs : Subscription) : R -> option error * R :=
  r_CreateSubs repository subs.

Definition UpdateSubs (id : UUID) (newSubs : Subscription) : R -> option error * R :=
  r_UpdateSubs repository id newSubs.

Definition DeleteSubs (id : UUID) : R -> option error * R :=
  r_DeleteSubs repository id.

(** The request as it reaches the repository: each bound formatted
    unless it is the zero time. *)
Definition summary_of_req (req : GetSummaryReq) : models.GetSummary :=
  let fromStr :=
    if negb (time.IsZero (sreq_From req))
    then time.Format_01_2006 (sreq_From req) else "" in
  let toStr :=
    if negb (time.IsZero (sreq_To req))
    then time.Format_01_2006 (sreq_To req) else "" in
  {| From := fromStr;
     To := toStr;
     sum_UserID := sreq_UserID req;
     sum_ServiceName := sreq_ServiceName req |}.

Definition GetSummary (req : GetSummaryReq) : R -> (Z * option error) * R :=
  r_GetSummary repository (summary_of_req req).

Definition ListSubs (filter : SubscriptionFilter)
    : R -> (list Subscription * option error) * R :=
  r_ListSubs repository filter.

Definition GetSub (id : UUID) : R -> (option Subscription * option error) * R :=
  r_GetSub repository id.

Definition SubscriptionExists (id : UUID) : R -> (bool * option error) * R :=
  r_SubscriptionExists repository id.

End SubscriptionService.

End service.

(** ** internal/router/handlers *)

Module handlers.

(** The interface [subscriptionService] of the handlers, over a service
    whose state has type [S]. *)
Record subscriptionService (S : Type) : Type := mkSubscriptionService {
  s_CreateSubs : Subscription -> S -> option error * S;
  s_UpdateSubs : UUID -> Subscription -> S -> option error * S;
  s_DeleteSubs : UUID -> S -> option error * S;
  s_ListSubs : SubscriptionFilter -> S -> (list Subscription * option error) * S;
  s_GetSummary : GetSummaryReq -> S -> (Z * option error) * S;
  s_GetSub : UUID -> S -> (option Subscription * option error) * S;
  s_SubscriptionExists : UUID -> S -> (bool * option error) * S
}.

Arguments s_CreateSubs {S}.
Arguments s_UpdateSubs {S}.
Arguments s_DeleteSubs {S}.
Arguments s_ListSubs {S}.
Arguments s_GetSummary {S}.
Arguments s_GetSub {S}.
Arguments s_SubscriptionExists {S}.

(** [service.SubscriptionService] implements the interface. *)
Definition SubscriptionService {R : Type} (repository : service.Subsrepository R)
    : subscriptionService R :=
  {| s_CreateSubs := service.CreateSubs repository;
     s_UpdateSubs := service.UpdateSubs repository;
     s_DeleteSubs := service.DeleteSubs repository;
     s_ListSubs := service.ListSubs repository;
     s_GetSummary := service.GetSummary repository;
     s_GetSub := service.GetSub repository;
     s_SubscriptionExists := service.SubscriptionExists repository |}.

(** A call through the interface, with its arguments. *)
Inductive Call : Type :=
| CallCreateSubs (subs : Subscription)
| CallUpdateSubs (id : UUID) (newSubs : Subscription)
| CallDeleteSubs (id : UUID)
| CallListSubs (filter : SubscriptionFilter)
| CallGetSummary (req : GetSummaryReq)
| CallGetSub (id : UUID)
| CallSubscriptionExists (id : UUID).

(** A service that records, in order, the calls made to another one and
    the error each returned, as the mock of the handler tests does. *)
Record Recorded (S : Type) : Type := mkRecorded {
  inner : S;
  calls : list (Call * option error)
}.

Arguments mkRecorded {S}.
Arguments inner {S}.
Arguments calls {S}.

Definition record_err {S : Type} (c : Call) (run : S -> option error * S)
    (st : Recorded S) : option error * Recorded S :=
  let (err, s') := run (inner st) in
  (err, mkRecorded s' (calls st ++ [(c, err)])%list).

Definition record_res {S A : Type} (c : Call) (run : S -> (A * option error) * S)
    (st : Recorded S) : (A * option error) * Recorded S :=
  let '((res, err), s') := run (inner st) in
  ((res, err), mkRecorded s' (calls st ++ [(c, err)])%list).

Definition recording {S : Type} (svc : subscriptionService S)
    : subscriptionService (Recorded S) :=
  {| s_CreateSubs := fun subs => record_err (CallCreateSubs subs) (s_CreateSubs svc subs);
     s_UpdateSubs := fun id newSubs =>
       record_err (CallUpdateSubs id newSubs) (s_UpdateSubs svc id newSubs);
     s_DeleteSubs := fun id => record_err (CallDeleteSubs id) (s_DeleteSubs svc id);
     s_ListSubs := fun filter => record_res (CallListSubs filter) (s_ListSubs svc filter);
     s_GetSummary := fun req => record_res (CallGetSummary req) (s_GetSummary svc req);
     s_GetSub := fun id => record_res (CallGetSub id) (s_GetSub svc id);
     s_SubscriptionExists := fun id =>
       record_res (CallSubscriptionExists id) (s_SubscriptionExists svc id) |}.

(** [*http.Request], as far as the handlers read it: the query
    parameters of the URL and the bytes of the body. *)
Record Request : Type := mkRequest {
  URL_Query : list (string * string);
  Body : string
}.

(** [url.Values.Get]: the first value of the key, or the empty string. *)
Definition Query_Get (query : list (string * string)) (key : string) : string :=
  match find (fun kv => String.eqb (fst kv) key) query with
  | Some kv => snd kv
  | None => ""
  end.

(** [http.ResponseWriter]: the headers of the response, the status code
    once it has been written, and the JSON values encoded into the body.
    Once the status code is written the headers are sent: setting one
    afterwards does not reach the response. *)
Record ResponseWriter : Type := mkResponseWriter {
  Header : list (string * string);
  Code : option Z;
  Written : list Response
}.

Definition NewRecorder : ResponseWriter := mkResponseWriter [] None [].

Definition Header_Set (key value : string) (w : ResponseWriter) : ResponseWriter :=
  match Code w with
  | Some _ => w
  | None =>
      mkResponseWriter
        ((key, value) :: filter (fun kv => negb (String.eqb (fst kv) key)) (Header w))
        (Code w) (Written w)
  end.

(** [WriteHeader]: only the first call sets the status code. *)
Definition WriteHeader (status : Z) (w : ResponseWriter) : ResponseWriter :=
  match Code w with
  | Some _ => w
  | None => mkResponseWriter (Header w) (Some status) (Written w)
  end.

(** [json.NewEncoder(w).Encode(response)]: a write, which sends the
    status 200 first when no status code has been written yet. *)
Definition Encode (response : Response) (w : ResponseWriter) : ResponseWriter :=
  let w' := WriteHeader 200 w in
  mkResponseWriter (Header w') (Code w') (Written w' ++ [response])%list.

Definition StatusOK : Z := 200.
Definition StatusBadRequest : Z := 400.
Definition StatusNotFound : Z := 404.
Definition StatusInternalServerError : Z := 500.

Definition sendResponse (w : ResponseWriter) (data : any) (message : string)
    (status : Z) : ResponseWriter :=
  let w := Header_Set "Content-Type" "application/json" w in
  let w := WriteHeader status w in
  let response := {| Status := status; Msg := message; Data := data |} in
  Encode response w.

(** A writer that no status code and no body has been written to. *)
Definition untouched (w : ResponseWriter) : Prop := Code w = None /\ Written w = [].

(** [validateSubReq].  The end date is reformatted through the pointer
    held by the request, so the request is returned as well. *)
Definition validateSubReq (sub : SubReq)
    : SubReq * (string * option string * option error) :=
  if String.eqb (req_ServiceName sub) "" then
    (sub, ("", None, Some (errors_New "invalid service name")))
  else if req_Price sub <=? 0 then
    (sub, ("", None, Some (errors_New "invalid price")))
  else if uuid_eqb (req_UserID sub) uuid_Nil then
    (sub, ("", None, Some (errors_New "invalid user id")))
  else
    match time.Parse_01_2006 (req_StartDate sub) with
    | None => (sub, ("", None, Some (errors_New "invalid start date")))
    | Some startDate =>
        match req_EndDate sub with
        | Some end_text =>
            match time.Parse_01_2006 end_text with
            | None => (sub, ("", None, Some (errors_New "invalid end date")))
            | Some endDate =>
                let sub' :=
                  mkSubReq (req_ServiceName sub) (req_Price sub) (req_UserID sub)
                    (req_StartDate sub) (Some (time.Format_01_2006 endDate)) in
                (sub', (time.Format_01_2006 startDate, req_EndDate sub', None))
            end
        | None => (sub, (time.Format_01_2006 startDate, req_EndDate sub, None))
        end
    end.

(** [uuid.NewRandom] on sixteen random bytes: version 4 in the high
    nibble of byte 6, the RFC 4122 variant in the two high bits of
    byte 8. *)
Definition uuid_v4 (random : N) : UUID :=
  N.lor
    (N.ldiff (random mod 2 ^ 128) (N.lor (N.shiftl 240 72) (N.shiftl 192 56)))
    (N.lor (N.shiftl 64 72) (N.shiftl 128 56)).

(** What a handler runs against: the state of the service and the
    random source read by [uuid.New], as the stream of its coming
    sixteen-byte reads. *)
Record World (S : Type) : Type := mkWorld {
  svc_state : S;
  rand : nat -> N
}.

Arguments mkWorld {S}.
Arguments svc_state {S}.
Arguments rand {S}.

Definition uuid_New {S : Type} (st : World S) : UUID * World S :=
  (uuid_v4 (rand st 0%nat), mkWorld (svc_state st) (fun n => rand st (Nat.succ n))).

(** A service call made by a handler: it acts on the service state. *)
Definition call {S A : Type} (run : S -> A * S) (st : World S) : A * World S :=
  let (res, s') := run (svc_state st) in
  (res, mkWorld s' (rand st)).

Section Handlers.

(** [uuid.Parse] and the two uses of [json.NewDecoder(r.Body).Decode],
    from the libraries; [None] is a non-nil error. *)
Variable uuid_Parse : string -> option UUID.
Variable Decode_SubReq : string -> option SubReq.
Variable Decode_GetSummaryReq : string -> option GetSummaryReq.

Context {S : Type}.

(** The field [service] of [SubscriptionHandler]. *)
Variable service : subscriptionService S.

Definition CreateSubs (w : ResponseWriter) (r : Request) (st : World S)
    : ResponseWriter * World S :=
  match Decode_SubReq (Body r) with
  | None => (sendResponse w DataNil "Invalid request body" StatusBadRequest, st)
  | Some subReq =>
      let '(subReq, (startDate, endDate, err)) := validateSubReq subReq in
      match err with
      | Some err =>
          (sendResponse w DataNil ("Invalid request body: " ++ Error err)
             StatusBadRequest, st)
      | None =>
          let (id, st) := uuid_New st in
          let sub :=
            {| ID := id;
               ServiceName := req_ServiceName subReq;
               Price := req_Price subReq;
               UserID := req_UserID subReq;
               StartDate := startDate;
               EndDate := endDate |} in
          let (err, st) := call (s_CreateSubs service sub) st in
          match err with
          | Some _ =>
              (sendResponse w DataNil "Failed to create subscription"
                 StatusInternalServerError, st)
          | None =>
              (sendResponse w (DataSubscription sub)
                 "Successfully created subscription" StatusOK, st)
          end
      end
  end.

Definition GetSubs (w : ResponseWriter) (r : Request) (st : World S)
    : ResponseWriter * World S :=
  let idStr := Query_Get (URL_Query r) "id" in
  if String.eqb idStr "" then
    (sendResponse w DataNil "Missing id parameter" StatusBadRequest, st)
  else
    match uuid_Parse idStr with
    | None => (sendResponse w DataNil "Invalid id format" StatusBadRequest, st)
    | Some id =>
        let '((sub, err), st) := call (s_GetSub service id) st in
        match err with
        | Some _ =>
            (sendResponse w DataNil "Failed to get subscription"
               StatusInternalServerError, st)
        | None =>
            (sendResponse w
               (match sub with Some sub => DataSubscription sub | None => DataNil end)
               "Successfully get subscriptions" StatusOK, st)
        end
    end.

Definition UpdateSubs (w : ResponseWriter) (r : Request) (st : World S)
    : ResponseWriter * World S :=
  let idStr := Query_Get (URL_Query r) "id" in
  if String.eqb idStr "" then
    (sendResponse w DataNil "Missing id parameter" StatusBadRequest, st)
  else
    match uuid_Parse idStr with
    | None =>
        (sendResponse w DataNil
           "Invalid id format, example xxxxxxxx-xxxx-xxxx-xxxx-xxxxxxxxxxxx"
           StatusBadRequest, st)
    | Some id =>
        match Decode_SubReq (Body r) with
        | None => (sendResponse w DataNil "Invalid request body" StatusBadRequest, st)
        | Some subReq =>
            let '(subReq, (startDate, endDate, err)) := validateSubReq subReq in
            match err with
            | Some err =>
                (sendResponse w DataNil ("Invalid request body: " ++ Error err)
                   StatusBadRequest, st)
            | None =>
                let (fresh, st) := uuid_New st in
                let sub :=
                  {| ID := fresh;
                     ServiceName := req_ServiceName subReq;
                     Price := req_Price subReq;
                     UserID := req_UserID subReq;
                     StartDate := startDate;
                     EndDate := endDate |} in
                let '((exists_, err), st) := call (s_SubscriptionExists service id) st in
                if (match err with Some _ => true | None => false end) || negb exists_
                then
                  (sendResponse w DataNil "Subscription does not exist"
                     StatusNotFound, st)
                else
                  let (err, st) := call (s_UpdateSubs service id sub) st in
                  match err with
                  | Some _ =>
                      (sendResponse w DataNil "Failed to update subscription"
                         StatusInternalServerError, st)
                  | None =>
                      (sendResponse w (DataSubscription sub)
                         "Successfully updated subscription" StatusOK, st)
                  end
            end
        end
    end.

Definition DeleteSubs (w : ResponseWriter) (r : Request) (st : World S)
    : ResponseWriter * World S :=
  let idStr := Query_Get (URL_Query r) "id" in
  if String.eqb idStr "" then
    (sendResponse w DataNil "Missing id parameter" StatusBadRequest, st)
  else
    match uuid_Parse idStr with
    | None => (sendResponse w DataNil "Invalid id format" StatusBadRequest, st)
    | Some id =>
        let (err, st) := call (s_DeleteSubs service id) st in
        match err with
        | Some _ =>
            (sendResponse w DataNil "Failed to delete subscription"
               StatusInternalServerError, st)
        | None =>
            (sendResponse w DataNil "Successfully deleted subscription" StatusOK, st)
        end
    end.

Definition ListSubs (w : ResponseWriter) (r : Request) (st : World S)
    : ResponseWriter * World S :=
  let userIdStr := Query_Get (URL_Query r) "userId" in
  let serviceName := Query_Get (URL_Query r) "serviceName" in
  let with_user (userId : option UUID) :=
    let filter :=
      {| flt_UserID := userId;
         flt_ServiceName :=
           if negb (String.eqb serviceName "") then Some serviceName else None |} in
    let '((subs, err), st) := call (s_ListSubs service filter) st in
    match err with
    | Some _ =>
        (sendResponse w DataNil "Failed to get list subs" StatusInternalServerError, st)
    | None =>
        (sendResponse w (DataSubscriptions subs) "Successfully get list subs"
           StatusOK, st)
    end in
  if negb (String.eqb userIdStr "") then
    match uuid_Parse userIdStr with
    | None =>
        (sendResponse w DataNil "Invalid user id parameter" StatusBadRequest, st)
    | Some userId => with_user (Some userId)
    end
  else with_user None.

Definition GetSummary (w : ResponseWriter) (r : Request) (st : World S)
    : ResponseWriter * World S :=
  match Decode_GetSummaryReq (Body r) with
  | None => (sendResponse w DataNil "Invalid request body" StatusBadRequest, st)
  | Some sumReq =>
      let '((total, err), st) := call (s_GetSummary service sumReq) st in
      match err with
      | Some _ =>
          (sendResponse w DataNil "Failed to get summary" StatusInternalServerError, st)
      | None => (sendResponse w (DataTotal total) "Successfully get summary" StatusOK, st)
      end
  end.

(** The routes that internal/router binds to the handlers. *)
Inductive Route : Type :=
| POST_subscriptions
| GET_subscriptions
| PUT_subscriptions
| DELETE_subscriptions
| POST_subscriptions_summary
| GET_all_subscriptions.

Definition ServeHTTP (route : Route)
    : ResponseWriter -> Request -> World S -> ResponseWriter * World S :=
  match route with
  | POST_subscriptions => CreateSubs
  | GET_subscriptions => GetSubs
  | PUT_subscriptions => UpdateSubs
  | DELETE_subscriptions => DeleteSubs
  | POST_subscriptions_summary => GetSummary
  | GET_all_subscriptions => ListSubs
  end.

End Handlers.

End handlers.

(** ** Serving a route against a recorded service *)

(** A route served on a new writer, the calls to the service recorded
    from an empty log. *)
Definition serve_recorded
    (uuid_Parse : string -> option UUID)
    (Decode_SubReq : string -> option SubReq)
    (Decode_GetSummaryReq : string -> option GetSummaryReq)
    {S : Type} (service : handlers.subscriptionService S)
    (route : handlers.Route) (r : handlers.Request) (s : S) (rand : nat -> N)
    : handlers.ResponseWriter * handlers.World (handlers.Recorded S) :=
  handlers.ServeHTTP uuid_Parse Decode_SubReq Decode_GetSummaryReq
    (handlers.recording service) route handlers.NewRecorder r
    (handlers.mkWorld (handlers.mkRecorded s []) rand).


(** A timestamp whose civil reading has a month of the calendar and a
    year of four digits, as every RFC 3339 timestamp has. *)
Definition four_digit_year (t : Time) : Prop :=
  1 <= month t <= 12 /\ 0 <= year t <= 9999.

(** ** The statements of the specification *)

Module spec.

(** The rows that the summary counts, in the words of the specification:
    the [to] bound is empty or [start_date <= to]; the [from] bound is
    empty or [end_date >= from] or the end date is absent; the user
    filter is absent or equals the row's user; the service name filter is
    empty or equals the row's service name. *)
Definition counted (text_le : string -> string -> bool)
    (from to : string) (user_id : option UUID) (service_name : string)
    (row : Subscription) : Prop :=
  (to = "" \/ text_le (StartDate row) to = true)
  /\ (from = ""
      \/ (exists end_date, EndDate row = Some end_date /\ text_le from end_date = true)
      \/ EndDate row = None)
  /\ (user_id = None \/ user_id = Some (UserID row))
  /\ (service_name = "" \/ ServiceName row = service_name).







End spec.

(** ** Sample data *)

Module sample.

(** Bytewise comparison of texts, the ordering of the [C] collation. *)
Definition text_le : string -> string -> bool := String.leb.

Definition hex_val (c : ascii) : option N :=
  let n := N_of_ascii c in
  if (48 <=? n)%N && (n <=? 57)%N then Some (n - 48)%N
  else if (97 <=? n)%N && (n <=? 102)%N then Some (n - 87)%N
  else if (65 <=? n)%N && (n <=? 70)%N then Some (n - 55)%N
  else None.

Fixpoint parse_hex (pos : nat) (acc : N) (s : string) : option UUID :=
  match s with
  | EmptyString => if Nat.eqb pos 36 then Some acc else None
  | String c rest =>
      if Nat.eqb pos 8 || Nat.eqb pos 13 || Nat.eqb pos 18 || Nat.eqb pos 23
      then if Ascii.eqb c "-" then parse_hex (Datatypes.S pos) acc rest else None
      else match hex_val c with
           | Some d => parse_hex (Datatypes.S pos) (acc * 16 + d)%N rest
           | None => None
           end
  end.

(** The form xxxxxxxx-xxxx-xxxx-xxxx-xxxxxxxxxxxx of an identifier. *)
Definition uuid_Parse (s : string) : option UUID := parse_hex 0 0%N s.

Definition user : UUID := 7%N.

Definition netflix : SubReq := mkSubReq "Netflix" 15 user "01-2025" None.
Definition bad_price_and_user : SubReq := mkSubReq "Netflix" 0 uuid_Nil "01-2025" None.
Definition netflix_2025 : SubReq :=
  mkSubReq "Netflix" 15 user "01-2025" (Some "12-2025").

(** A decoder that knows two bodies. *)
Definition Decode_SubReq (body : string) : option SubReq :=
  if String.eqb body "netflix" then Some netflix
  else if String.eqb body "bad_price_and_user" then Some bad_price_and_user
  else None.

Definition january_2025 : Time := mkTime 2025 1 1 0 0 0 0 0.
Definition december_2025 : Time := mkTime 2025 12 31 0 0 0 0 0.

Definition year_2025 : GetSummaryReq :=
  mkGetSummaryReq "" january_2025 december_2025 None.

Definition Decode_GetSummaryReq (body : string) : option GetSummaryReq :=
  if String.eqb body "year_2025" then Some year_2025 else None.

Definition id1 : UUID := 1%N.
Definition id1_text : string := "00000000-0000-0000-0000-000000000001".

Definition row1 : Subscription := mkSubscription id1 "Yandex" 400 user "03-2025" None.
Definition row2 : Subscription :=
  mkSubscription 2%N "Netflix" 15 9%N "01-2025" (Some "06-2025").

Definition stack : handlers.subscriptionService repository.DB :=
  handlers.SubscriptionService
    (service.Repository text_le migrations.schema).

Definition world (rows : list Subscription) (outages : list bool)
    : handlers.World (handlers.Recorded repository.DB) :=
  handlers.mkWorld (handlers.mkRecorded (repository.mkDB rows outages) [])
    (fun n => N.of_nat n + 1000)%N.

Definition put (id body : string) : handlers.Request :=
  handlers.mkRequest [("id", id)] body.

(** The scenario of the specification for the summary. *)
Definition summary_scenario : models.GetSummary :=
  {| From := "02-2025"; To := "01-2026"; sum_UserID := None; sum_ServiceName := "" |}.

Definition other_service : models.GetSummary :=
  {| From := ""; To := ""; sum_UserID := None; sum_ServiceName := "Spotify" |}.

Definition new_terms : Subscription :=
  mkSubscription 99%N "Netflix Premium" 25 42%N "02-2025" (Some "12-2025").

Definition two_rows : repository.DB := repository.mkDB [row1; row2] [].

Definition two_rows_updated : repository.DB :=
  repository.mkDB
    [row1;
     mkSubscription 2%N "Netflix Premium" 25 9%N "02-2025" (Some "12-2025")] [].



(** The update of the first of two rows, served with the calls recorded. *)
Definition update_of_row1
    : handlers.ResponseWriter * handlers.World (handlers.Recorded repository.DB) :=
  handlers.UpdateSubs uuid_Parse Decode_SubReq (handlers.recording stack)
    handlers.NewRecorder (put id1_text "netflix") (world [row1; row2] []).

End sample.

(** ** internal/middleware and the chain of internal/router *)

Module middleware.

Definition StatusTooManyRequests : Z := 429.

(** The limiter of [rate.NewLimiter(r, b)], as the stream of the answers
    of its coming calls to [Allow]: they depend on the clock. *)
Definition Limiter : Type := nat -> bool.

Definition Allow (limiter : Limiter) : bool * Limiter :=
  (limiter 0%nat, fun n => limiter (Nat.succ n)).

Section Chain.

Context {S : Type}.

(** [RateLimiterMiddleware(r, b, log)(next)]. *)
Definition RateLimiterMiddleware
    (next : handlers.ResponseWriter -> handlers.Request -> handlers.World S
            -> handlers.ResponseWriter * handlers.World S)
    (w : handlers.ResponseWriter) (req : handlers.Request)
    (st : Limiter * handlers.World S)
    : handlers.ResponseWriter * (Limiter * handlers.World S) :=
  let (allowed, limiter) := Allow (fst st) in
  if negb allowed then
    let w := handlers.Header_Set "Content-Type" "application/json" w in
    let w := handlers.WriteHeader StatusTooManyRequests w in
    let response :=
      {| Status := StatusTooManyRequests; Msg := "Too many requests"; Data := DataNil |} in
    (handlers.Encode response w, (limiter, snd st))
  else
    let (w, world) := next w req (snd st) in
    (w, (limiter, world)).

(** The handler that [RunRouter] gives to the server for a request of a
    registered route: the rate limiter around the route's handler (the
    logging middleware around both only provides the logger). *)
Definition RunRouter
    (uuid_Parse : string -> option UUID)
    (Decode_SubReq : string -> option SubReq)
    (Decode_GetSummaryReq : string -> option GetSummaryReq)
    (service : handlers.subscriptionService S) (route : handlers.Route)
    : handlers.ResponseWriter -> handlers.Request -> Limiter * handlers.World S
      -> handlers.ResponseWriter * (Limiter * handlers.World S) :=
  RateLimiterMiddleware
    (handlers.ServeHTTP uuid_Parse Decode_SubReq Decode_GetSummaryReq service route).

End Chain.

End middleware.

(** ** Shapes used in the statements *)

(** [Header().Get]: the value of a header, if it is set. *)
Definition Header_Get (key : string) (w : handlers.ResponseWriter) : option string :=
  option_map snd (find (fun kv => String.eqb (fst kv) key) (handlers.Header w)).

(** The route whose handler makes the call. *)
Definition route_of_call (c : handlers.Call) : handlers.Route :=
  match c with
  | handlers.CallCreateSubs _ => handlers.POST_subscriptions
  | handlers.CallUpdateSubs _ _ => handlers.PUT_subscriptions
  | handlers.CallDeleteSubs _ => handlers.DELETE_subscriptions
  | handlers.CallListSubs _ => handlers.GET_all_subscriptions
  | handlers.CallGetSummary _ => handlers.POST_subscriptions_summary
  | handlers.CallGetSub _ => handlers.GET_subscriptions
  | handlers.CallSubscriptionExists _ => handlers.PUT_subscriptions
  end.

(** A text of seven bytes, two digits, a dash and four digits, whose
    first two digits are a month from 01 to 12. *)
Definition month_text (s : string) : bool :=
  match s with
  | String a (String b _) =>
      repository.date_pattern s
      && (1 <=? time.digit_val a * 10 + time.digit_val b)
      && (time.digit_val a * 10 + time.digit_val b <=? 12)
  | _ => false
  end.

(** A third subscription. *)
Definition spotify : Subscription :=
  mkSubscription 3%N "Spotify" 10 7%N "04-2025" None.

(** The SQL repository behind the service, with the schema of the
    migration. *)
Definition sql_stack (text_le : string -> string -> bool)
    : handlers.subscriptionService repository.DB :=
  handlers.SubscriptionService (service.Repository text_le migrations.schema).

(** * Properties *)

(** ** The time layout *)

Module time_facts.
Import time.

Lemma digit_char_val (c : ascii) : isDigit c = true -> digit_char (digit_val c) = c.
Proof.
  destruct c as [b0 b1 b2 b3 b4 b5 b6 b7].
  destruct b0, b1, b2, b3, b4, b5, b6, b7; intro H;
    solve [ discriminate H | reflexivity ].
Qed.

Lemma digit_val_range (c : ascii) : isDigit c = true -> 0 <= digit_val c <= 9.
Proof.
  unfold isDigit, digit_val. intro H.
  apply andb_true_iff in H. destruct H as [Hlo Hhi].
  apply Nat.leb_le in Hlo. apply Nat.leb_le in Hhi. lia.
Qed.

Lemma isDigit_digit_char (d : Z) : 0 <= d <= 9 -> isDigit (digit_char d) = true.
Proof.
  intro H.
  assert (Hd : d = 0 \/ d = 1 \/ d = 2 \/ d = 3 \/ d = 4 \/ d = 5 \/ d = 6
               \/ d = 7 \/ d = 8 \/ d = 9) by lia.
  repeat (destruct Hd as [Hd | Hd]; [ subst d; reflexivity | ]).
  subst d; reflexivity.
Qed.

(** A text accepted by the layout is two digits, a dash and four
    digits, the month between 1 and 12, and the parsed time reads them. *)
Lemma Parse_inv (s : string) (t : Time) :
  Parse_01_2006 s = Some t ->
  exists a b c d e f,
    s = String a (String b (String "-" (String c (String d (String e (String f ""))))))
    /\ isDigit a = true /\ isDigit b = true /\ isDigit c = true
    /\ isDigit d = true /\ isDigit e = true /\ isDigit f = true
    /\ 1 <= digit_val a * 10 + digit_val b <= 12
    /\ t = mkTime
             (((digit_val c * 10 + digit_val d) * 10 + digit_val e) * 10 + digit_val f)
             (digit_val a * 10 + digit_val b) 1 0 0 0 0 0.
Proof.
  unfold Parse_01_2006, getnum_fixed.
  destruct s as [| a [| b s1]]; try discriminate.
  destruct (isDigit a) eqn:Ha; [ | discriminate ].
  destruct (isDigit b) eqn:Hb; [ | discriminate ].
  cbn [andb].
  destruct ((_ <=? 0) || (12 <? _)) eqn:Hm; [ discriminate | ].
  apply orb_false_iff in Hm. destruct Hm as [Hm1 Hm2].
  apply Z.leb_gt in Hm1. apply Z.ltb_ge in Hm2.
  unfold skip_dash.
  destruct s1 as [| dash s2]; [ discriminate | ].
  destruct (Ascii.eqb dash "-") eqn:Hdash; [ | discriminate ].
  apply Ascii.eqb_eq in Hdash. subst dash.
  unfold get_long_year.
  destruct s2 as [| c [| d [| e [| f s3]]]]; try discriminate.
  destruct (isDigit c) eqn:Hc; [ | discriminate ].
  cbn [atoi_digits]. rewrite Hc.
  destruct (isDigit d) eqn:Hd; [ | discriminate ].
  destruct (isDigit e) eqn:He; [ | discriminate ].
  destruct (isDigit f) eqn:Hf; [ | discriminate ].
  destruct s3; [ | discriminate ].
  intro H. injection H as <-.
  exists a, b, c, d, e, f.
  repeat split; try reflexivity; try assumption; lia.
Qed.

Lemma appendInt_2 (a b : ascii) :
  isDigit a = true -> isDigit b = true ->
  appendInt (digit_val a * 10 + digit_val b) 2 = String a (String b "").
Proof.
  intros Ha Hb.
  pose proof (digit_val_range a Ha) as Ra.
  pose proof (digit_val_range b Hb) as Rb.
  unfold appendInt.
  replace (_ <? 0) with false by (symmetry; apply Z.ltb_ge; lia).
  rewrite Z.abs_eq by lia.
  replace (digit_val a * 10 + digit_val b <? 100) with true
    by (symmetry; apply Z.ltb_lt; lia).
  cbn [Z.eqb Pos.eqb andb append].
  replace ((digit_val a * 10 + digit_val b) / 10) with (digit_val a)
    by (apply Z.div_unique with (r := digit_val b); lia).
  replace ((digit_val a * 10 + digit_val b) mod 10) with (digit_val b)
    by (apply Z.mod_unique with (q := digit_val a); lia).
  now rewrite !digit_char_val.
Qed.

Lemma appendInt_4 (c d e f : ascii) :
  isDigit c = true -> isDigit d = true -> isDigit e = true -> isDigit f = true ->
  appendInt (((digit_val c * 10 + digit_val d) * 10 + digit_val e) * 10 + digit_val f) 4
  = String c (String d (String e (String f ""))).
Proof.
  intros Hc Hd He Hf.
  pose proof (digit_val_range c Hc) as Rc.
  pose proof (digit_val_range d Hd) as Rd.
  pose proof (digit_val_range e He) as Re.
  pose proof (digit_val_range f Hf) as Rf.
  set (y := ((digit_val c * 10 + digit_val d) * 10 + digit_val e) * 10 + digit_val f).
  assert (Hhi : y / 100 = digit_val c * 10 + digit_val d)
    by (symmetry; apply Z.div_unique with (r := digit_val e * 10 + digit_val f);
        subst y; lia).
  assert (Hlo : y mod 100 = digit_val e * 10 + digit_val f)
    by (symmetry; apply Z.mod_unique with (q := digit_val c * 10 + digit_val d);
        subst y; lia).
  unfold appendInt.
  replace (y <? 0) with false by (symmetry; apply Z.ltb_ge; subst y; lia).
  rewrite Z.abs_eq by (subst y; lia).
  replace (y <? 10000) with true by (symmetry; apply Z.ltb_lt; subst y; lia).
  cbn [Z.eqb Pos.eqb andb append].
  rewrite Hhi, Hlo.
  replace ((digit_val c * 10 + digit_val d) / 10) with (digit_val c)
    by (apply Z.div_unique with (r := digit_val d); lia).
  replace ((digit_val c * 10 + digit_val d) mod 10) with (digit_val d)
    by (apply Z.mod_unique with (q := digit_val c); lia).
  replace ((digit_val e * 10 + digit_val f) / 10) with (digit_val e)
    by (apply Z.div_unique with (r := digit_val f); lia).
  replace ((digit_val e * 10 + digit_val f) mod 10) with (digit_val f)
    by (apply Z.mod_unique with (q := digit_val e); lia).
  now rewrite !digit_char_val.
Qed.

(** Formatting what the layout parsed gives the text back: the layout
    accepts canonical texts only. *)
Lemma Format_Parse (s : string) (t : Time) :
  Parse_01_2006 s = Some t -> Format_01_2006 t = s.
Proof.
  intro H. apply Parse_inv in H.
  destruct H as (a & b & c & d & e & f & -> & Ha & Hb & Hc & Hd & He & Hf & _ & ->).
  unfold Format_01_2006. cbn [month year].
  rewrite appendInt_2, appendInt_4 by assumption.
  reflexivity.
Qed.

Lemma Parse_pattern (s : string) (t : Time) :
  Parse_01_2006 s = Some t -> repository.date_pattern s = true.
Proof.
  intro H. apply Parse_inv in H.
  destruct H as (a & b & c & d & e & f & -> & Ha & Hb & Hc & Hd & He & Hf & _).
  cbn. now rewrite Ha, Hb, Hc, Hd, He, Hf.
Qed.

(** A text that is not zero padded is refused. *)
Example Parse_unpadded : Parse_01_2006 "1-2025" = None.
Proof. reflexivity. Qed.

Example Parse_padded : Parse_01_2006 "01-2025" = Some (mkTime 2025 1 1 0 0 0 0 0).
Proof. reflexivity. Qed.

End time_facts.

(** ** The repository *)

Module repository_facts.
Import repository.

Lemma COALESCE_SUM (values : list Z) :
  COALESCE (sql_SUM values) 0 = fold_right Z.add 0 values.
Proof. destruct values; reflexivity. Qed.

Lemma null_or_uuid_spec (param : option UUID) (column : UUID) :
  null_or_uuid param column = true <-> param = None \/ param = Some column.
Proof.
  destruct param as [v |]; cbn.
  - unfold uuid_eqb. rewrite N.eqb_eq. split.
    + intros ->. now right.
    + intros [H | H]; [ discriminate | now injection H ].
  - split; auto.
Qed.

Section Collation.

Variable text_le : string -> string -> bool.

(** The [WHERE] clause run with the arguments [To, From, UserID,
    ServiceName] selects the rows that the specification counts. *)
Lemma summary_where_counted (sum : models.GetSummary) (row : Subscription) :
  summary_where text_le (To sum) (From sum) (sum_UserID sum) (sum_ServiceName sum) row
  = true
  <-> spec.counted text_le (From sum) (To sum) (sum_UserID sum) (sum_ServiceName sum)
        row.
Proof.
  unfold summary_where, spec.counted.
  rewrite !andb_true_iff, !orb_true_iff, !String.eqb_eq, null_or_uuid_spec.
  split.
  - intros [[[Hto Hfrom] Huser] Hname]. repeat split; try assumption.
    destruct Hfrom as [Hfrom | Hfrom]; [ now left | right ].
    destruct (EndDate row) as [end_date |]; [ left; now exists end_date | now right ].
  - intros (Hto & Hfrom & Huser & Hname). repeat split; try assumption.
    destruct Hfrom as [Hfrom | [(end_date & -> & Hle) | ->]]; auto.
Qed.

End Collation.

Lemma round_trip_table (db db' : DB) (err : option error) :
  round_trip db = (err, db') -> table db' = table db.
Proof.
  unfold round_trip. destruct (outages db) as [| failed rest]; intro H;
    injection H as _ <-; reflexivity.
Qed.

Lemma nth_error_update_stmt (p1 : string) (p2 : Z) (p3 : string) (p4 : option string)
    (p5 : UUID) (rows : list Subscription) (i : nat) (row : Subscription) :
  nth_error rows i = Some row ->
  nth_error (update_stmt p1 p2 p3 p4 p5 rows) i
  = Some (if uuid_eqb (ID row) p5 then update_set p1 p2 p3 p4 row else row).
Proof.
  intro H. unfold update_stmt. now rewrite nth_error_map, H.
Qed.

End repository_facts.

(** ** Summary and update in the repository *)

Lemma filter_none {A : Type} (f : A -> bool) (l : list A) :
  (forall x, In x l -> f x = false) -> filter f l = [].
Proof.
  induction l as [| x l IH]; intro H; [ reflexivity | ].
  cbn. rewrite (H x (or_introl eq_refl)). apply IH.
  intros y Hy. apply H. now right.
Qed.

(** C1. When the round trip to the store succeeds, [GetSummary] returns,
    without error, the sum of the prices of exactly the rows that the
    specification counts: the [To] bound is compared with [start_date]
    and the [From] bound with [end_date]. *)
Theorem GetSummary_sums_counted_rows
    (text_le : string -> string -> bool) (sum : models.GetSummary)
    (db : repository.DB) :
  fst (repository.round_trip db) = None ->
  exists selects : Subscription -> bool,
    (forall row,
        selects row = true
        <-> spec.counted text_le (From sum) (To sum) (sum_UserID sum)
              (sum_ServiceName sum) row)
    /\ fst (repository.GetSummary text_le sum db)
       = (fold_right Z.add 0 (map Price (filter selects (repository.table db))), None).
Proof.
  intro Hok.
  exists (repository.summary_where text_le (To sum) (From sum) (sum_UserID sum)
            (sum_ServiceName sum)).
  split.
  - intro row. apply repository_facts.summary_where_counted.
  - unfold repository.GetSummary.
    destruct (repository.round_trip db) as [err db'] eqn:Hrt.
    cbn in Hok. subst err.
    rewrite (repository_facts.round_trip_table _ _ _ Hrt).
    cbn [fst]. now rewrite repository_facts.COALESCE_SUM.
Qed.

Lemma GetSummary_sums_counted_rows_witness :
  fst (repository.round_trip (repository.mkDB [sample.row1; sample.row2] [])) = None
  /\ exists selects : Subscription -> bool,
      (forall row,
          selects row = true
          <-> spec.counted sample.text_le "02-2025" "01-2026" None "" row)
      /\ fst (repository.GetSummary sample.text_le sample.summary_scenario
                (repository.mkDB [sample.row1; sample.row2] []))
         = (fold_right Z.add 0 (map Price (filter selects [sample.row1; sample.row2])),
            None).
Proof.
  split; [ reflexivity | ].
  apply (GetSummary_sums_counted_rows sample.text_le sample.summary_scenario
           (repository.mkDB [sample.row1; sample.row2] [])).
  reflexivity.
Defined.

(** With the bytewise ordering, the row started in "03-2025" is left out
    for the bound "01-2026", and the row started in "01-2025" and ended
    in "06-2025" is counted. *)
Example GetSummary_scenario_total :
  fst (repository.GetSummary sample.text_le sample.summary_scenario
         (repository.mkDB [sample.row1; sample.row2] []))
  = (15, None).
Proof. reflexivity. Qed.

(** C8. When the round trip succeeds and no stored row is counted by the
    request, [GetSummary] returns the total 0 and a nil error. *)
Theorem GetSummary_no_match_zero
    (text_le : string -> string -> bool) (sum : models.GetSummary)
    (db : repository.DB) :
  fst (repository.round_trip db) = None ->
  (forall row,
      In row (repository.table db) ->
      ~ spec.counted text_le (From sum) (To sum) (sum_UserID sum)
          (sum_ServiceName sum) row) ->
  fst (repository.GetSummary text_le sum db) = (0, None).
Proof.
  intros Hok Hnone.
  unfold repository.GetSummary.
  destruct (repository.round_trip db) as [err db'] eqn:Hrt.
  cbn in Hok. subst err.
  rewrite (repository_facts.round_trip_table _ _ _ Hrt).
  rewrite filter_none; [ reflexivity | ].
  intros row Hin.
  destruct (repository.summary_where text_le (To sum) (From sum) (sum_UserID sum)
              (sum_ServiceName sum) row) eqn:Hsel; [ | reflexivity ].
  apply repository_facts.summary_where_counted in Hsel.
  now destruct (Hnone row Hin).
Qed.

Lemma GetSummary_no_match_zero_witness :
  fst (repository.GetSummary sample.text_le sample.other_service
         (repository.mkDB [sample.row1; sample.row2] []))
  = (0, None).
Proof.
  apply (GetSummary_no_match_zero sample.text_le sample.other_service
           (repository.mkDB [sample.row1; sample.row2] [])).
  - reflexivity.
  - intros row Hin (_ & _ & _ & [Hname | Hname]); [ discriminate Hname | ].
    cbn in Hin. destruct Hin as [<- | [<- | []]]; discriminate Hname.
Defined.

(** C7. Whatever its outcome, [UpdateSubs] keeps the number and order of
    the rows; every row keeps its [id] and [user_id]; a row whose id is
    not the given one is unchanged; and when the update succeeds, a row
    with the given id holds the new service name, price, start date and
    end date. *)
Theorem UpdateSubs_frame
    (schema_ok : list Subscription -> bool) (id : UUID) (newSubs : Subscription)
    (db db' : repository.DB) (err : option error) :
  repository.UpdateSubs schema_ok id newSubs db = (err, db') ->
  List.length (repository.table db') = List.length (repository.table db)
  /\ forall (i : nat) (row : Subscription),
      nth_error (repository.table db) i = Some row ->
      exists row',
        nth_error (repository.table db') i = Some row'
        /\ ID row' = ID row
        /\ UserID row' = UserID row
        /\ (ID row <> id -> row' = row)
        /\ (ID row = id -> err = None ->
            ServiceName row' = ServiceName newSubs
            /\ Price row' = Price newSubs
            /\ StartDate row' = StartDate newSubs
            /\ EndDate row' = EndDate newSubs).
Proof.
  unfold repository.UpdateSubs.
  destruct (repository.round_trip db) as [[e |] db1] eqn:Hrt;
    pose proof (repository_facts.round_trip_table _ _ _ Hrt) as Htable.
  - intro H. injection H as <- <-. rewrite Htable. split; [ reflexivity | ].
    intros i row Hrow. exists row. repeat split; try assumption; discriminate.
  - destruct (existsb _ _ && negb _).
    + intro H. injection H as <- <-. rewrite Htable. split; [ reflexivity | ].
      intros i row Hrow. exists row. repeat split; try assumption; discriminate.
    + intro H. injection H as <- <-. cbn [repository.table]. rewrite Htable.
      split; [ apply List.length_map | ].
      intros i row Hrow.
      rewrite (repository_facts.nth_error_update_stmt _ _ _ _ _ _ _ _ Hrow).
      unfold uuid_eqb.
      destruct (N.eqb_spec (ID row) id) as [Heq | Hne].
      * eexists. split; [ reflexivity | ].
        cbn. split; [ reflexivity | ]. split; [ reflexivity | ].
        split; [ intro Hne; now destruct Hne | ].
        intros _ _. repeat split.
      * exists row. split; [ reflexivity | ].
        split; [ reflexivity | ]. split; [ reflexivity | ].
        split; [ reflexivity | ]. intro Heq. now destruct Hne.
Qed.

Lemma UpdateSubs_frame_witness :
  repository.UpdateSubs migrations.schema 2%N sample.new_terms sample.two_rows
  = (None, sample.two_rows_updated)
  /\ List.length (repository.table sample.two_rows_updated)
     = List.length (repository.table sample.two_rows)
  /\ forall (i : nat) (row : Subscription),
      nth_error (repository.table sample.two_rows) i = Some row ->
      exists row',
        nth_error (repository.table sample.two_rows_updated) i = Some row'
        /\ ID row' = ID row
        /\ UserID row' = UserID row
        /\ (ID row <> 2%N -> row' = row)
        /\ (ID row = 2%N -> @None error = None ->
            ServiceName row' = ServiceName sample.new_terms
            /\ Price row' = Price sample.new_terms
            /\ StartDate row' = StartDate sample.new_terms
            /\ EndDate row' = EndDate sample.new_terms).
Proof.
  split; [ reflexivity | ].
  apply (UpdateSubs_frame migrations.schema 2%N sample.new_terms
           sample.two_rows sample.two_rows_updated None).
  reflexivity.
Defined.

(** ** The summary request in the service *)

Lemma Format_pattern (t : Time) :
  four_digit_year t -> repository.date_pattern (time.Format_01_2006 t) = true.
Proof.
  intros [Hm Hy].
  unfold time.Format_01_2006, time.appendInt.
  replace (month t <? 0) with false by (symmetry; apply Z.ltb_ge; lia).
  replace (year t <? 0) with false by (symmetry; apply Z.ltb_ge; lia).
  rewrite !Z.abs_eq by lia.
  replace (month t <? 100) with true by (symmetry; apply Z.ltb_lt; lia).
  replace (year t <? 10000) with true by (symmetry; apply Z.ltb_lt; lia).
  cbn [Z.eqb Pos.eqb andb append repository.date_pattern].
  assert (H100 : 0 <= year t / 100 <= 99).
  { split; [ apply Z.div_pos; lia | ].
    apply Z.lt_succ_r. apply Z.div_lt_upper_bound; lia. }
  pose proof (Z.mod_pos_bound (year t) 100 ltac:(lia)) as Hlo.
  rewrite !time_facts.isDigit_digit_char; try reflexivity;
    first [ apply Z.mod_pos_bound; lia
          | pose proof (Z.mod_pos_bound (month t) 10 ltac:(lia)); lia
          | pose proof (Z.mod_pos_bound (year t / 100) 10 ltac:(lia)); lia
          | pose proof (Z.mod_pos_bound (year t mod 100) 10 ltac:(lia)); lia
          | split; [ apply Z.div_pos; lia
                   | apply Z.lt_succ_r; apply Z.div_lt_upper_bound; lia ] ].
Qed.

(** C5. The service hands to the repository a request whose [From] and
    [To] are the ["01-2006"] rendering of the timestamps, or the empty
    string for a zero timestamp, and whose user and service name are
    those of the incoming request; the rendering of a timestamp with a
    four-digit year has the form of two digits, a dash and four digits. *)
Theorem GetSummary_formats_bounds
    {R : Type} (repository : service.Subsrepository R) (req : GetSummaryReq) (st : R) :
  exists sum : models.GetSummary,
    service.GetSummary repository req st = service.r_GetSummary repository sum st
    /\ From sum = (if time.IsZero (sreq_From req) then ""
                   else time.Format_01_2006 (sreq_From req))
    /\ To sum = (if time.IsZero (sreq_To req) then ""
                 else time.Format_01_2006 (sreq_To req))
    /\ sum_UserID sum = sreq_UserID req
    /\ sum_ServiceName sum = sreq_ServiceName req
    /\ (time.IsZero (sreq_From req) = false -> four_digit_year (sreq_From req) ->
        repository.date_pattern (From sum) = true)
    /\ (time.IsZero (sreq_To req) = false -> four_digit_year (sreq_To req) ->
        repository.date_pattern (To sum) = true).
Proof.
  exists (service.summary_of_req req).
  unfold service.GetSummary, service.summary_of_req. cbn [From To sum_UserID sum_ServiceName].
  split; [ reflexivity | ].
  destruct (time.IsZero (sreq_From req)), (time.IsZero (sreq_To req)); cbn [negb];
    repeat split; try reflexivity; try discriminate;
    intros _ H; now apply Format_pattern.
Qed.

Lemma GetSummary_formats_bounds_witness :
  fst (service.GetSummary
         (service.Repository sample.text_le migrations.schema)
         (mkGetSummaryReq "Netflix" sample.january_2025 time.zero (Some 9%N))
         (repository.mkDB [sample.row1; sample.row2] []))
  = (15, None)
  /\ exists sum : models.GetSummary,
      service.GetSummary
        (service.Repository sample.text_le migrations.schema)
        (mkGetSummaryReq "Netflix" sample.january_2025 time.zero (Some 9%N))
        (repository.mkDB [sample.row1; sample.row2] [])
      = repository.GetSummary sample.text_le sum
          (repository.mkDB [sample.row1; sample.row2] [])
      /\ From sum = "01-2025"
      /\ To sum = ""
      /\ sum_UserID sum = Some 9%N
      /\ sum_ServiceName sum = "Netflix"
      /\ (false = false -> four_digit_year sample.january_2025 ->
          repository.date_pattern (From sum) = true)
      /\ (true = false -> four_digit_year time.zero ->
          repository.date_pattern (To sum) = true).
Proof.
  split; [ reflexivity | ].
  exact (GetSummary_formats_bounds
           (service.Repository sample.text_le migrations.schema)
           (mkGetSummaryReq "Netflix" sample.january_2025 time.zero (Some 9%N))
           (repository.mkDB [sample.row1; sample.row2] [])).
Defined.

(** ** The handlers *)

Module handler_facts.
Import handlers.

Lemma sendResponse_untouched (w : ResponseWriter) (data : any) (message : string)
    (status : Z) :
  untouched w ->
  Code (sendResponse w data message status) = Some status
  /\ Written (sendResponse w data message status) = [mkResponse status message data].
Proof.
  intros [Hcode Hbody].
  unfold sendResponse, Encode, WriteHeader, Header_Set. cbn.
  rewrite Hcode. cbn. rewrite Hbody. split; reflexivity.
Qed.


(** One case split on the next test of a handler's body. *)
Ltac handler_step :=
  match goal with
  | |- context [match ?x with _ => _ end] =>
      lazymatch x with
      | context [match _ with _ => _ end] => fail
      | _ => destruct x eqn:?; cbv beta iota
      end
  end.

Ltac handler_cases := repeat handler_step.

End handler_facts.

(** C10. On every route and whatever the request, the service and its
    state, a handler started on an untouched writer writes exactly one
    envelope, and the status inside the envelope is the status code
    written on the response. *)
Theorem envelope_status_is_code
    (uuid_Parse : string -> option UUID)
    (Decode_SubReq : string -> option SubReq)
    (Decode_GetSummaryReq : string -> option GetSummaryReq)
    {S : Type} (service : handlers.subscriptionService S)
    (route : handlers.Route) (w : handlers.ResponseWriter) (r : handlers.Request)
    (st : handlers.World S) :
  handlers.untouched w ->
  exists response : Response,
    handlers.Written
      (fst (handlers.ServeHTTP uuid_Parse Decode_SubReq Decode_GetSummaryReq service
              route w r st))
    = [response]
    /\ handlers.Code
         (fst (handlers.ServeHTTP uuid_Parse Decode_SubReq Decode_GetSummaryReq service
                 route w r st))
       = Some (Status response).
Proof.
  intro Hw.
  destruct route; cbn [handlers.ServeHTTP];
    unfold handlers.CreateSubs, handlers.GetSubs, handlers.UpdateSubs,
      handlers.DeleteSubs, handlers.GetSummary, handlers.ListSubs;
    handler_facts.handler_cases; cbn [fst];
    match goal with
    | |- context [handlers.sendResponse w ?d ?m ?s] =>
        destruct (handler_facts.sendResponse_untouched w d m s Hw) as [Hcode Hbody];
        rewrite Hcode, Hbody; eexists; split; reflexivity
    end.
Qed.




Lemma validateSubReq_ok_inv (sub sub' : SubReq) (sd : string) (ed : option string) :
  handlers.validateSubReq sub = (sub', (sd, ed, None)) ->
  String.eqb (req_ServiceName sub) "" = false
  /\ (req_Price sub <=? 0) = false
  /\ uuid_eqb (req_UserID sub) uuid_Nil = false
  /\ (exists t, time.Parse_01_2006 (req_StartDate sub) = Some t
                /\ sd = time.Format_01_2006 t)
  /\ match req_EndDate sub with
     | Some end_text =>
         exists t, time.Parse_01_2006 end_text = Some t
                   /\ ed = Some (time.Format_01_2006 t)
     | None => ed = None
     end.
Proof.
  unfold handlers.validateSubReq.
  destruct (String.eqb (req_ServiceName sub) ""); [ discriminate | ].
  destruct (req_Price sub <=? 0); [ discriminate | ].
  destruct (uuid_eqb (req_UserID sub) uuid_Nil); [ discriminate | ].
  destruct (time.Parse_01_2006 (req_StartDate sub)) as [t |]; [ | discriminate ].
  destruct (req_EndDate sub) as [end_text |] eqn:Hend.
  - destruct (time.Parse_01_2006 end_text) as [te |]; [ | discriminate ].
    cbn. intro H. injection H as _ <- <-.
    repeat split; try reflexivity; eauto.
  - intro H. injection H as _ <- <-.
    repeat split; try reflexivity; eauto.
Qed.

(** C4. On an update request whose id parses and whose body decodes and
    passes validation, when the existence check answers "no" without
    error, the handler responds 404 and the only call it has made to the
    service is that existence check: the update is not invoked. *)
Theorem UpdateSubs_absent_is_404
    (uuid_Parse : string -> option UUID)
    (Decode_SubReq : string -> option SubReq)
    {S : Type} (service : handlers.subscriptionService S)
    (w : handlers.ResponseWriter) (r : handlers.Request)
    (st : handlers.World (handlers.Recorded S))
    (id : UUID) (sub : SubReq) (s' : S) :
  handlers.untouched w ->
  handlers.Query_Get (handlers.URL_Query r) "id" <> "" ->
  uuid_Parse (handlers.Query_Get (handlers.URL_Query r) "id") = Some id ->
  Decode_SubReq (handlers.Body r) = Some sub ->
  snd (snd (handlers.validateSubReq sub)) = None ->
  handlers.s_SubscriptionExists service id (handlers.inner (handlers.svc_state st))
  = ((false, None), s') ->
  let result :=
    handlers.UpdateSubs uuid_Parse Decode_SubReq (handlers.recording service) w r st in
  handlers.Code (fst result) = Some 404
  /\ handlers.calls (handlers.svc_state (snd result))
     = (handlers.calls (handlers.svc_state st)
          ++ [(handlers.CallSubscriptionExists id, None)])%list
  /\ handlers.inner (handlers.svc_state (snd result)) = s'.
Proof.
  intros Hw Hid Hparse Hdec Hvalid Hexists result. subst result.
  unfold handlers.UpdateSubs.
  apply String.eqb_neq in Hid. rewrite Hid, Hparse, Hdec.
  destruct (handlers.validateSubReq sub) as [sub' [[startDate endDate] err]].
  cbn in Hvalid. subst err.
  unfold handlers.uuid_New, handlers.call, handlers.recording, handlers.record_res.
  cbn [handlers.s_SubscriptionExists handlers.svc_state handlers.rand handlers.inner
         handlers.calls].
  rewrite Hexists. cbn [negb orb fst snd handlers.svc_state handlers.calls handlers.inner].
  destruct (handler_facts.sendResponse_untouched w DataNil
              "Subscription does not exist" handlers.StatusNotFound Hw) as [Hcode _].
  rewrite Hcode. repeat split.
Qed.

Lemma UpdateSubs_absent_is_404_witness :
  handlers.Code
    (fst (handlers.UpdateSubs sample.uuid_Parse sample.Decode_SubReq
            (handlers.recording sample.stack) handlers.NewRecorder
            (sample.put sample.id1_text "netflix") (sample.world [sample.row2] [])))
  = Some 404
  /\ handlers.calls
       (handlers.svc_state
          (snd (handlers.UpdateSubs sample.uuid_Parse sample.Decode_SubReq
                  (handlers.recording sample.stack) handlers.NewRecorder
                  (sample.put sample.id1_text "netflix")
                  (sample.world [sample.row2] []))))
     = [(handlers.CallSubscriptionExists sample.id1, None)]
  /\ handlers.inner
       (handlers.svc_state
          (snd (handlers.UpdateSubs sample.uuid_Parse sample.Decode_SubReq
                  (handlers.recording sample.stack) handlers.NewRecorder
                  (sample.put sample.id1_text "netflix")
                  (sample.world [sample.row2] []))))
     = repository.mkDB [sample.row2] [].
Proof.
  apply (UpdateSubs_absent_is_404 sample.uuid_Parse sample.Decode_SubReq sample.stack
           handlers.NewRecorder (sample.put sample.id1_text "netflix")
           (sample.world [sample.row2] []) sample.id1 sample.netflix
           (repository.mkDB [sample.row2] []));
    try reflexivity.
  - split; reflexivity.
  - discriminate.
Defined.

(** ** Persistence failures *)








(** The row addressed by the request keeps its id and its user, and the
    entity of the response carries another id. *)
Example update_of_row1_table :
  repository.table (handlers.inner (handlers.svc_state (snd sample.update_of_row1)))
  = [mkSubscription 1%N "Netflix" 15 sample.user "01-2025" None; sample.row2]
  /\ handlers.Written (fst sample.update_of_row1)
     = [mkResponse 200 "Successfully updated subscription"
          (DataSubscription
             (mkSubscription 302240678275694148453352%N "Netflix" 15 sample.user
                "01-2025" None))].
Proof. split; reflexivity. Qed.

Lemma envelope_status_is_code_witness :
  handlers.untouched handlers.NewRecorder
  /\ exists response : Response,
      handlers.Written
        (fst (handlers.ServeHTTP sample.uuid_Parse sample.Decode_SubReq
                sample.Decode_GetSummaryReq sample.stack handlers.DELETE_subscriptions
                handlers.NewRecorder (handlers.mkRequest [] "")
                (handlers.mkWorld (repository.mkDB [sample.row1] []) (fun _ => 5%N))))
      = [response]
      /\ handlers.Code
           (fst (handlers.ServeHTTP sample.uuid_Parse sample.Decode_SubReq
                   sample.Decode_GetSummaryReq sample.stack
                   handlers.DELETE_subscriptions
                   handlers.NewRecorder (handlers.mkRequest [] "")
                   (handlers.mkWorld (repository.mkDB [sample.row1] [])
                      (fun _ => 5%N))))
         = Some (Status response).
Proof.
  split; [ split; reflexivity | ].
  apply (envelope_status_is_code sample.uuid_Parse sample.Decode_SubReq
           sample.Decode_GetSummaryReq sample.stack handlers.DELETE_subscriptions
           handlers.NewRecorder (handlers.mkRequest [] "")
           (handlers.mkWorld (repository.mkDB [sample.row1] []) (fun _ => 5%N))).
  split; reflexivity.
Defined.

(** The request without an id is answered 400 "Missing id parameter". *)
Example delete_without_id :
  fst (handlers.DeleteSubs sample.uuid_Parse sample.stack handlers.NewRecorder
         (handlers.mkRequest [] "")
         (handlers.mkWorld (repository.mkDB [sample.row1] []) (fun _ => 5%N)))
  = handlers.mkResponseWriter [("Content-Type", "application/json")] (Some 400)
      [mkResponse 400 "Missing id parameter" DataNil].
Proof. reflexivity. Qed.

(** * Further properties of the repository *)

Lemma filter_all {A : Type} (f : A -> bool) (l : list A) :
  (forall x, In x l -> f x = true) -> filter f l = l.
Proof.
  induction l as [| x l IH]; intro H; [ reflexivity | ].
  cbn. rewrite (H x (or_introl eq_refl)). f_equal. apply IH.
  intros y Hy. apply H. now right.
Qed.

Lemma null_or_text_spec (param : option string) (column : string) :
  repository.null_or_text param column = true
  <-> param = None \/ param = Some column.
Proof.
  destruct param as [v |]; cbn.
  - rewrite String.eqb_eq. split.
    + intros ->. now right.
    + intros [H | H]; [ discriminate | now injection H ].
  - split; auto.
Qed.

Lemma round_trip_ok (db : repository.DB) :
  fst (repository.round_trip db) = None ->
  exists db', repository.round_trip db = (None, db')
              /\ repository.table db' = repository.table db.
Proof.
  intro H. destruct (repository.round_trip db) as [err db'] eqn:Hrt.
  cbn in H. subst err. exists db'. split; [ reflexivity | ].
  exact (repository_facts.round_trip_table _ _ _ Hrt).
Qed.

(** X1. When the round trip succeeds, [ListSubs] returns without error
    the rows of the table, in the table's order, whose user is the
    filter's user when there is one and whose service name is the
    filter's name when there is one; with an empty filter these are all
    the rows. *)
Theorem ListSubs_selects_matching
    (filter_ : SubscriptionFilter) (db : repository.DB) :
  fst (repository.round_trip db) = None ->
  (exists selects : Subscription -> bool,
      (forall row,
          selects row = true
          <-> (flt_UserID filter_ = None \/ flt_UserID filter_ = Some (UserID row))
              /\ (flt_ServiceName filter_ = None
                  \/ flt_ServiceName filter_ = Some (ServiceName row)))
      /\ fst (repository.ListSubs filter_ db)
         = (filter selects (repository.table db), None))
  /\ (flt_UserID filter_ = None -> flt_ServiceName filter_ = None ->
      fst (repository.ListSubs filter_ db) = (repository.table db, None)).
Proof.
  intro Hok. destruct (round_trip_ok db Hok) as (db' & Hrt & Htable).
  unfold repository.ListSubs. rewrite Hrt, Htable. cbn [fst].
  split.
  - exists (repository.list_where (flt_UserID filter_) (flt_ServiceName filter_)).
    split; [ | reflexivity ].
    intro row. unfold repository.list_where.
    now rewrite andb_true_iff, repository_facts.null_or_uuid_spec, null_or_text_spec.
  - intros -> ->. now rewrite filter_all.
Qed.

Lemma ListSubs_selects_matching_witness :
  fst (repository.ListSubs (mkSubscriptionFilter None (Some "Netflix")) sample.two_rows)
  = ([sample.row2], None).
Proof.
  destruct (ListSubs_selects_matching (mkSubscriptionFilter None (Some "Netflix"))
              sample.two_rows eq_refl) as [(selects & Hsel & Hres) _].
  rewrite Hres. cbn [repository.table sample.two_rows filter].
  destruct (selects sample.row1) eqn:H1.
  - apply Hsel in H1. destruct H1 as [_ [H1 | H1]]; discriminate H1.
  - destruct (selects sample.row2) eqn:H2; [ reflexivity | ].
    assert (H : selects sample.row2 = true)
      by (apply Hsel; split; [ now left | now right ]).
    congruence.
Defined.

(** X2. When the round trip succeeds, [DeleteSubs] returns no error and
    leaves exactly the rows whose id is not the given one; when no row
    has the id the table is unchanged; and a following existence check
    of the id answers false. *)
Theorem DeleteSubs_removes_the_id (id : UUID) (db : repository.DB) :
  fst (repository.round_trip db) = None ->
  fst (repository.DeleteSubs id db) = None
  /\ (forall row,
         In row (repository.table (snd (repository.DeleteSubs id db)))
         <-> In row (repository.table db) /\ ID row <> id)
  /\ ((forall row, In row (repository.table db) -> ID row <> id) ->
      repository.table (snd (repository.DeleteSubs id db)) = repository.table db)
  /\ (fst (repository.round_trip (snd (repository.DeleteSubs id db))) = None ->
      fst (repository.SubscriptionExists id (snd (repository.DeleteSubs id db)))
      = (false, None)).
Proof.
  intro Hok. destruct (round_trip_ok db Hok) as (db' & Hrt & Htable).
  unfold repository.DeleteSubs. rewrite Hrt. cbn [fst snd repository.table].
  rewrite Htable.
  assert (Hin : forall row,
             In row (filter (fun row => negb (uuid_eqb (ID row) id))
                       (repository.table db))
             <-> In row (repository.table db) /\ ID row <> id).
  { intro row. rewrite filter_In, negb_true_iff. unfold uuid_eqb.
    now rewrite N.eqb_neq. }
  split; [ reflexivity | ].
  split; [ exact Hin | ].
  split.
  - intro Habsent. apply filter_all. intros row Hrow.
    apply negb_true_iff. apply N.eqb_neq. now apply Habsent.
  - intro Hok2. destruct (round_trip_ok _ Hok2) as (db2 & Hrt2 & Htable2).
    unfold repository.SubscriptionExists. rewrite Hrt2, Htable2.
    cbn [fst repository.table]. f_equal.
    destruct (existsb _ _) eqn:Hex; [ | reflexivity ].
    apply existsb_exists in Hex. destruct Hex as (row & Hrow & Heq).
    apply Hin in Hrow. destruct Hrow as [_ Hne].
    apply N.eqb_eq in Heq. now destruct Hne.
Qed.

Lemma DeleteSubs_removes_the_id_witness :
  fst (repository.DeleteSubs 1%N sample.two_rows) = None
  /\ repository.table (snd (repository.DeleteSubs 7%N sample.two_rows))
     = repository.table sample.two_rows.
Proof.
  split.
  - exact (proj1 (DeleteSubs_removes_the_id 1%N sample.two_rows eq_refl)).
  - apply (proj1 (proj2 (proj2 (DeleteSubs_removes_the_id 7%N sample.two_rows
                                  eq_refl)))).
    intros row [<- | [<- | []]]; discriminate.
Defined.

(** X3. When the round trip succeeds, [GetSub] either returns a row of
    the table that has the given id, without error, or returns the error
    "subscription not found" and then no row has the id; it succeeds
    exactly when [SubscriptionExists] answers true. *)
Theorem GetSub_found_or_not_found (id : UUID) (db : repository.DB) :
  fst (repository.round_trip db) = None ->
  ((exists sub,
       fst (repository.GetSub id db) = (Some sub, None)
       /\ In sub (repository.table db) /\ ID sub = id)
   \/ (fst (repository.GetSub id db)
       = (None, Some (errors_New "subscription not found"))
       /\ forall row, In row (repository.table db) -> ID row <> id))
  /\ (fst (fst (repository.SubscriptionExists id db)) = true
      <-> snd (fst (repository.GetSub id db)) = None).
Proof.
  intro Hok. destruct (round_trip_ok db Hok) as (db' & Hrt & Htable).
  unfold repository.GetSub, repository.SubscriptionExists.
  rewrite Hrt, Htable. cbn [fst snd].
  destruct (find _ (repository.table db)) as [sub |] eqn:Hfind.
  - pose proof (find_some _ _ Hfind) as [Hin Heq].
    split.
    + left. exists sub. repeat split; try assumption. now apply N.eqb_eq.
    + cbn [fst snd]. split; [ reflexivity | ]. intros _.
      apply existsb_exists. now exists sub.
  - split.
    + right. split; [ reflexivity | ].
      intros row Hrow. apply N.eqb_neq.
      exact (find_none _ _ Hfind row Hrow).
    + cbn [fst snd]. split; [ | discriminate ].
      intro Hex. apply existsb_exists in Hex. destruct Hex as (row & Hrow & Heq).
      pose proof (find_none _ _ Hfind row Hrow) as Hne. cbn in Hne. congruence.
Qed.

Lemma GetSub_found_or_not_found_witness :
  fst (fst (repository.SubscriptionExists 5%N sample.two_rows)) = true
  <-> snd (fst (repository.GetSub 5%N sample.two_rows)) = None.
Proof.
  exact (proj2 (GetSub_found_or_not_found 5%N sample.two_rows eq_refl)).
Defined.

Lemma find_snoc {A : Type} (f : A -> bool) (l : list A) (x : A) :
  find f (l ++ [x])
  = match find f l with
    | Some y => Some y
    | None => if f x then Some x else None
    end.
Proof.
  induction l as [| y l IH]; [ reflexivity | ].
  cbn. destruct (f y); [ reflexivity | exact IH ].
Qed.

(** X4. A subscription inserted by a successful [CreateSubs] under an id
    that no row had is the last row of the table; a following [GetSub]
    of its id returns it, [SubscriptionExists] answers true, and a
    [GetSub] of another id finds what it found before. *)
Theorem CreateSubs_then_GetSub
    (schema_ok : list Subscription -> bool) (subs : Subscription)
    (db db1 : repository.DB) :
  repository.CreateSubs schema_ok subs db = (None, db1) ->
  (forall row, In row (repository.table db) -> ID row <> ID subs) ->
  fst (repository.round_trip db1) = None ->
  repository.table db1 = (repository.table db ++ [subs])%list
  /\ fst (repository.GetSub (ID subs) db1) = (Some subs, None)
  /\ fst (repository.SubscriptionExists (ID subs) db1) = (true, None)
  /\ forall id,
      id <> ID subs ->
      fst (repository.GetSub id db1)
      = fst (repository.GetSub id (repository.mkDB (repository.table db) [])).
Proof.
  intros Hcreate Hfresh Hok.
  assert (Htable : repository.table db1 = (repository.table db ++ [subs])%list).
  { unfold repository.CreateSubs in Hcreate.
    destruct (repository.round_trip db) as [[e |] db0] eqn:Hrt; [ discriminate | ].
    pose proof (repository_facts.round_trip_table _ _ _ Hrt) as Ht.
    destruct (schema_ok _); [ | discriminate ].
    injection Hcreate as <-. cbn. now rewrite Ht. }
  destruct (round_trip_ok db1 Hok) as (db2 & Hrt2 & Htable2).
  unfold repository.GetSub, repository.SubscriptionExists.
  rewrite Hrt2, Htable2, Htable. cbn [fst repository.round_trip repository.outages
                                       repository.table].
  pose proof (fun id => find_snoc (fun row => uuid_eqb (ID row) id)
                          (repository.table db) subs) as Hmiss.
  assert (Hnone : find (fun row => uuid_eqb (ID row) (ID subs)) (repository.table db)
                  = None).
  { destruct (find _ (repository.table db)) as [row |] eqn:Hfind; [ | reflexivity ].
    apply find_some in Hfind. destruct Hfind as [Hin Heq].
    apply N.eqb_eq in Heq. now destruct (Hfresh row Hin). }
  split; [ reflexivity | ].
  split; [ | split ].
  - rewrite Hmiss, Hnone. unfold uuid_eqb. now rewrite N.eqb_refl.
  - f_equal. rewrite existsb_app. cbn. unfold uuid_eqb.
    rewrite N.eqb_refl. apply orb_true_iff. right. reflexivity.
  - intros id Hne. rewrite Hmiss.
    destruct (find (fun row => uuid_eqb (ID row) id) (repository.table db));
      [ reflexivity | ].
    unfold uuid_eqb. replace (ID subs =? id)%N with false; [ reflexivity | ].
    symmetry. apply N.eqb_neq. congruence.
Qed.

Lemma CreateSubs_then_GetSub_witness :
  repository.CreateSubs migrations.schema spotify sample.two_rows
  = (None, repository.mkDB [sample.row1; sample.row2; spotify] [])
  /\ fst (repository.GetSub 3%N (repository.mkDB [sample.row1; sample.row2; spotify] []))
     = (Some spotify, None).
Proof.
  split; [ reflexivity | ].
  apply (CreateSubs_then_GetSub migrations.schema spotify sample.two_rows
           (repository.mkDB [sample.row1; sample.row2; spotify] [])).
  - reflexivity.
  - intros row [<- | [<- | []]]; discriminate.
  - reflexivity.
Defined.

(** X5. When the round trip succeeds and no row has the given id,
    [UpdateSubs] returns no error and leaves the table as it is, for all
    new values that the store can bind as parameters (a price within
    [INTEGER], ASCII texts without NUL within the lengths of the
    columns): the [CHECK] constraints are not consulted, so a price that
    is not positive or a date of another form does not make it fail. *)
Theorem UpdateSubs_absent_is_noop
    (schema_ok : list Subscription -> bool) (id : UUID) (newSubs : Subscription)
    (db : repository.DB) :
  fst (repository.round_trip db) = None ->
  (forall row, In row (repository.table db) -> ID row <> id) ->
  - migrations.INTEGER_max - 1 <= Price newSubs <= migrations.INTEGER_max ->
  migrations.ascii_text (ServiceName newSubs) = true ->
  (String.length (ServiceName newSubs) <= 255)%nat ->
  migrations.ascii_text (StartDate newSubs) = true ->
  (String.length (StartDate newSubs) <= 7)%nat ->
  (forall end_date,
      EndDate newSubs = Some end_date ->
      migrations.ascii_text end_date = true /\ (String.length end_date <= 7)%nat) ->
  fst (repository.UpdateSubs schema_ok id newSubs db) = None
  /\ repository.table (snd (repository.UpdateSubs schema_ok id newSubs db))
     = repository.table db.
Proof.
  intros Hok Habsent _ _ _ _ _ _.
  destruct (round_trip_ok db Hok) as (db' & Hrt & Htable).
  unfold repository.UpdateSubs. rewrite Hrt, Htable.
  assert (Hex : existsb (fun row => uuid_eqb (ID row) id) (repository.table db) = false).
  { destruct (existsb _ _) eqn:Hex; [ | reflexivity ].
    apply existsb_exists in Hex. destruct Hex as (row & Hrow & Heq).
    apply N.eqb_eq in Heq. now destruct (Habsent row Hrow). }
  rewrite Hex. cbn [andb fst snd repository.table].
  split; [ reflexivity | ].
  unfold repository.update_stmt.
  rewrite <- (map_id (repository.table db)) at 2.
  apply map_ext_in. intros row Hrow.
  replace (uuid_eqb (ID row) id) with false; [ reflexivity | ].
  symmetry. apply N.eqb_neq. now apply Habsent.
Qed.

Lemma UpdateSubs_absent_is_noop_witness :
  fst (repository.UpdateSubs migrations.schema 8%N
         (mkSubscription 0%N "Netflix" 0 0%N "2025-01" None) sample.two_rows) = None
  /\ repository.table
       (snd (repository.UpdateSubs migrations.schema 8%N
               (mkSubscription 0%N "Netflix" 0 0%N "2025-01" None) sample.two_rows))
     = repository.table sample.two_rows.
Proof.
  apply (UpdateSubs_absent_is_noop migrations.schema 8%N
           (mkSubscription 0%N "Netflix" 0 0%N "2025-01" None) sample.two_rows).
  - reflexivity.
  - intros row [<- | [<- | []]]; discriminate.
  - cbn. unfold migrations.INTEGER_max. lia.
  - reflexivity.
  - cbn. lia.
  - reflexivity.
  - cbn. lia.
  - discriminate.
Defined.

Lemma find_update_stmt (p1 : string) (p2 : Z) (p3 : string) (p4 : option string)
    (id : UUID) (rows : list Subscription) (old : Subscription) :
  find (fun row => uuid_eqb (ID row) id) rows = Some old ->
  find (fun row => uuid_eqb (ID row) id) (repository.update_stmt p1 p2 p3 p4 id rows)
  = Some (repository.update_set p1 p2 p3 p4 old).
Proof.
  unfold repository.update_stmt.
  induction rows as [| row rows IH]; [ discriminate | ].
  cbn. destruct (uuid_eqb (ID row) id) eqn:Heq.
  - intro H. injection H as ->. cbn. now rewrite Heq.
  - rewrite Heq. exact IH.
Qed.

(** X6. After [GetSub] has returned a row for an id and [UpdateSubs] has
    succeeded for that id, [GetSub] returns the row with the same id and
    user and with the new service name, price, start date and end date. *)
Theorem UpdateSubs_then_GetSub
    (schema_ok : list Subscription -> bool) (id : UUID) (newSubs old : Subscription)
    (db db0 db1 : repository.DB) :
  repository.GetSub id db = ((Some old, None), db0) ->
  repository.UpdateSubs schema_ok id newSubs db0 = (None, db1) ->
  fst (repository.round_trip db1) = None ->
  fst (repository.GetSub id db1)
  = (Some (mkSubscription id (ServiceName newSubs) (Price newSubs) (UserID old)
             (StartDate newSubs) (EndDate newSubs)), None).
Proof.
  intros Hget Hupd Hok.
  assert (Hfind : find (fun row => uuid_eqb (ID row) id) (repository.table db0)
                  = Some old).
  { unfold repository.GetSub in Hget.
    destruct (repository.round_trip db) as [[e |] d] eqn:Hrt; [ discriminate | ].
    destruct (find _ (repository.table d)) as [row |] eqn:Hf; [ | discriminate ].
    injection Hget as <- <-. exact Hf. }
  assert (Htable : repository.table db1
                   = repository.update_stmt (ServiceName newSubs) (Price newSubs)
                       (StartDate newSubs) (EndDate newSubs) id
                       (repository.table db0)).
  { unfold repository.UpdateSubs in Hupd.
    destruct (repository.round_trip db0) as [[e |] d] eqn:Hrt; [ discriminate | ].
    pose proof (repository_facts.round_trip_table _ _ _ Hrt) as Ht.
    destruct (existsb _ _ && negb _); [ discriminate | ].
    injection Hupd as <-. cbn. now rewrite Ht. }
  destruct (round_trip_ok db1 Hok) as (db2 & Hrt2 & Htable2).
  unfold repository.GetSub. rewrite Hrt2, Htable2, Htable.
  rewrite (find_update_stmt _ _ _ _ _ _ _ Hfind). cbn [fst]. unfold repository.update_set.
  apply find_some in Hfind. destruct Hfind as [_ Heq].
  apply N.eqb_eq in Heq. now rewrite Heq.
Qed.

Lemma UpdateSubs_then_GetSub_witness :
  fst (repository.GetSub 2%N sample.two_rows_updated)
  = (Some (mkSubscription 2%N "Netflix Premium" 25 9%N "02-2025" (Some "12-2025")),
     None).
Proof.
  apply (UpdateSubs_then_GetSub migrations.schema 2%N sample.new_terms
           sample.row2 sample.two_rows sample.two_rows sample.two_rows_updated);
    reflexivity.
Defined.

(** X8. The four reading operations never change the table, whether the
    round trip succeeds or fails, and a statement that returns an error
    has changed nothing either. *)
Theorem reads_and_failures_keep_the_table
    (text_le : string -> string -> bool) (schema_ok : list Subscription -> bool)
    (db : repository.DB) :
  (forall id,
      repository.table (snd (repository.SubscriptionExists id db)) = repository.table db)
  /\ (forall id, repository.table (snd (repository.GetSub id db)) = repository.table db)
  /\ (forall filter_,
         repository.table (snd (repository.ListSubs filter_ db)) = repository.table db)
  /\ (forall sum,
         repository.table (snd (repository.GetSummary text_le sum db))
         = repository.table db)
  /\ (forall subs err,
         fst (repository.CreateSubs schema_ok subs db) = Some err ->
         repository.table (snd (repository.CreateSubs schema_ok subs db))
         = repository.table db)
  /\ (forall id newSubs err,
         fst (repository.UpdateSubs schema_ok id newSubs db) = Some err ->
         repository.table (snd (repository.UpdateSubs schema_ok id newSubs db))
         = repository.table db)
  /\ (forall id err,
         fst (repository.DeleteSubs id db) = Some err ->
         repository.table (snd (repository.DeleteSubs id db)) = repository.table db).
Proof.
  unfold repository.SubscriptionExists, repository.GetSub, repository.ListSubs,
    repository.GetSummary, repository.CreateSubs, repository.UpdateSubs,
    repository.DeleteSubs.
  destruct (repository.round_trip db) as [[e |] db'] eqn:Hrt;
    pose proof (repository_facts.round_trip_table _ _ _ Hrt) as Htable;
    repeat split; intros; cbn [fst snd] in *; try assumption; try discriminate.
  - now destruct (find _ _).
  - destruct (schema_ok _); [ discriminate | assumption ].
  - destruct (existsb _ _ && negb _); [ assumption | discriminate ].
Qed.

Lemma reads_and_failures_keep_the_table_witness :
  fst (repository.UpdateSubs migrations.schema 1%N
         (mkSubscription 0%N "Yandex" 0 0%N "03-2025" None) sample.two_rows)
  = Some (errorString "failed to update subscription: constraint violation")
  /\ repository.table
       (snd (repository.UpdateSubs migrations.schema 1%N
               (mkSubscription 0%N "Yandex" 0 0%N "03-2025" None) sample.two_rows))
     = repository.table sample.two_rows.
Proof.
  split; [ reflexivity | ].
  apply (proj1 (proj2 (proj2 (proj2 (proj2 (proj2
           (reads_and_failures_keep_the_table sample.text_le migrations.schema
              sample.two_rows))))))
           1%N (mkSubscription 0%N "Yandex" 0 0%N "03-2025" None)
           (errorString "failed to update subscription: constraint violation")).
  reflexivity.
Defined.

(** X9. Without date bounds, the total of [GetSummary] is the sum of the
    prices of the rows that [ListSubs] returns for the same user filter
    and for the service name, an empty name meaning no filter. *)
Theorem GetSummary_unbounded_sums_ListSubs
    (text_le : string -> string -> bool) (user_id : option UUID)
    (service_name : string) (db : repository.DB) :
  fst (repository.round_trip db) = None ->
  fst (fst (repository.GetSummary text_le
              (mkGetSummary "" "" user_id service_name) db))
  = fold_right Z.add 0
      (map Price
         (fst (fst (repository.ListSubs
                      (mkSubscriptionFilter user_id
                         (if String.eqb service_name "" then None
                          else Some service_name)) db)))).
Proof.
  intro Hok. destruct (round_trip_ok db Hok) as (db' & Hrt & Htable).
  unfold repository.GetSummary, repository.ListSubs.
  rewrite Hrt, Htable. cbn [fst From To sum_UserID sum_ServiceName flt_UserID
                              flt_ServiceName].
  rewrite repository_facts.COALESCE_SUM. do 2 f_equal.
  apply filter_ext. intro row.
  unfold repository.summary_where, repository.list_where. cbn [String.eqb orb andb].
  destruct (String.eqb service_name ""); cbn [repository.null_or_text orb].
  - now rewrite andb_true_r.
  - reflexivity.
Qed.

Lemma GetSummary_unbounded_sums_ListSubs_witness :
  fst (fst (repository.GetSummary sample.text_le (mkGetSummary "" "" (Some 9%N) "")
              sample.two_rows))
  = fold_right Z.add 0
      (map Price
         (fst (fst (repository.ListSubs (mkSubscriptionFilter (Some 9%N) None)
                      sample.two_rows)))).
Proof.
  exact (GetSummary_unbounded_sums_ListSubs sample.text_le (Some 9%N) ""
           sample.two_rows eq_refl).
Defined.

Lemma sum_positive (values : list Z) :
  (forall v, In v values -> 0 < v) ->
  0 <= fold_right Z.add 0 values
  /\ (fold_right Z.add 0 values = 0 -> values = []).
Proof.
  induction values as [| v values IH]; intro Hpos; [ split; [ cbn; lia | reflexivity ] | ].
  assert (Hv : 0 < v) by (apply Hpos; now left).
  destruct IH as [IH _]; [ intros u Hu; apply Hpos; now right | ].
  cbn. split; lia.
Qed.

(** X10. In a table where every price is positive, as the migration
    requires, the total of a successful [GetSummary] is never negative,
    and it is 0 only if no row is counted by the request. *)
Theorem GetSummary_zero_means_no_match
    (text_le : string -> string -> bool) (sum : models.GetSummary)
    (db : repository.DB) :
  fst (repository.round_trip db) = None ->
  (forall row, In row (repository.table db) -> 0 < Price row) ->
  0 <= fst (fst (repository.GetSummary text_le sum db))
  /\ (fst (fst (repository.GetSummary text_le sum db)) = 0 ->
      forall row,
        In row (repository.table db) ->
        ~ spec.counted text_le (From sum) (To sum) (sum_UserID sum)
            (sum_ServiceName sum) row).
Proof.
  intros Hok Hpos. destruct (round_trip_ok db Hok) as (db' & Hrt & Htable).
  unfold repository.GetSummary. rewrite Hrt, Htable. cbn [fst].
  rewrite repository_facts.COALESCE_SUM.
  set (selected := filter _ (repository.table db)).
  assert (Hsel : forall v, In v (map Price selected) -> 0 < v).
  { intros v Hv. apply in_map_iff in Hv. destruct Hv as (row & <- & Hrow).
    apply filter_In in Hrow. now apply Hpos. }
  destruct (sum_positive _ Hsel) as [Hnonneg Hzero].
  split; [ exact Hnonneg | ].
  intros H0 row Hrow Hcounted.
  apply Hzero in H0. apply map_eq_nil in H0.
  apply repository_facts.summary_where_counted in Hcounted.
  assert (Hin : In row selected) by (apply filter_In; now split).
  rewrite H0 in Hin. destruct Hin.
Qed.

Lemma GetSummary_zero_means_no_match_witness :
  0 <= fst (fst (repository.GetSummary sample.text_le sample.summary_scenario
                   sample.two_rows)).
Proof.
  apply (GetSummary_zero_means_no_match sample.text_le sample.summary_scenario
           sample.two_rows eq_refl).
  intros row [<- | [<- | []]]; reflexivity.
Defined.

(** * Further properties of the validation and of the date format *)

Lemma digit_val_char (d : Z) : 0 <= d <= 9 -> time.digit_val (time.digit_char d) = d.
Proof.
  intro H.
  assert (Hd : d = 0 \/ d = 1 \/ d = 2 \/ d = 3 \/ d = 4 \/ d = 5 \/ d = 6
               \/ d = 7 \/ d = 8 \/ d = 9) by lia.
  repeat (destruct Hd as [Hd | Hd]; [ subst d; reflexivity | ]).
  subst d; reflexivity.
Qed.

(** The layout accepts exactly the texts of two digits, a dash and four
    digits whose month is between 01 and 12. *)
Lemma Parse_iff_month_text (s : string) :
  (exists t, time.Parse_01_2006 s = Some t) <-> month_text s = true.
Proof.
  split.
  - intros [t Ht]. apply time_facts.Parse_inv in Ht.
    destruct Ht as (a & b & c & d & e & f & -> & Ha & Hb & Hc & Hd & He & Hf & Hm & _).
    unfold month_text, repository.date_pattern.
    rewrite Ha, Hb, Hc, Hd, He, Hf. cbn [andb Ascii.eqb Bool.eqb].
    apply andb_true_iff. split; [ apply Z.leb_le | apply Z.leb_le ]; lia.
  - unfold month_text, repository.date_pattern.
    destruct s as [| a [| b [| dash [| c [| d [| e [| f [| g s]]]]]]]];
      try discriminate.
    rewrite !andb_true_iff.
    intros [[[[[[[[Ha Hb] Hdash] Hc] Hd] He] Hf] Hlo] Hhi].
    apply Ascii.eqb_eq in Hdash. subst dash.
    apply Z.leb_le in Hlo. apply Z.leb_le in Hhi.
    unfold time.Parse_01_2006, time.getnum_fixed. rewrite Ha, Hb. cbn [andb].
    replace (_ <=? 0) with false by (symmetry; apply Z.leb_gt; lia).
    replace (12 <? _) with false by (symmetry; apply Z.ltb_ge; lia).
    cbn [orb time.skip_dash Ascii.eqb Bool.eqb time.get_long_year time.atoi_digits].
    rewrite Hc, Hd, He, Hf. eexists. reflexivity.
Qed.

(** What an accepted payload looks like, and what its validation
    returns. *)
Lemma validateSubReq_accepted (sub : SubReq) :
  snd (snd (handlers.validateSubReq sub)) = None ->
  handlers.validateSubReq sub = (sub, (req_StartDate sub, req_EndDate sub, None))
  /\ 0 < req_Price sub
  /\ month_text (req_StartDate sub) = true
  /\ forall end_date, req_EndDate sub = Some end_date -> month_text end_date = true.
Proof.
  unfold handlers.validateSubReq.
  destruct (String.eqb (req_ServiceName sub) ""); [ discriminate | ].
  destruct (Z.leb_spec (req_Price sub) 0) as [Hp | Hp]; [ discriminate | ].
  destruct (uuid_eqb (req_UserID sub) uuid_Nil); [ discriminate | ].
  destruct (time.Parse_01_2006 (req_StartDate sub)) as [t |] eqn:Ht;
    [ | discriminate ].
  assert (Hstart : month_text (req_StartDate sub) = true)
    by (apply Parse_iff_month_text; now exists t).
  rewrite (time_facts.Format_Parse _ _ Ht).
  destruct sub as [name price user start end_]. cbn in *.
  destruct end_ as [end_text |].
  - destruct (time.Parse_01_2006 end_text) as [te |] eqn:Hte; [ | discriminate ].
    intros _. rewrite (time_facts.Format_Parse _ _ Hte).
    repeat split; try assumption.
    intros end_date H. injection H as <-.
    apply Parse_iff_month_text. now exists te.
  - intros _. repeat split; try assumption. discriminate.
Qed.




(** X11. A successful [validateSubReq] changes nothing: the request is
    left as it was, although its end date is rewritten in place, and the
    dates returned are the dates received. *)
Theorem validateSubReq_returns_the_input
    (sub sub' : SubReq) (sd : string) (ed : option string) :
  handlers.validateSubReq sub = (sub', (sd, ed, None)) ->
  sub' = sub /\ sd = req_StartDate sub /\ ed = req_EndDate sub.
Proof.
  intro Hv.
  destruct (validateSubReq_ok_inv _ _ _ _ Hv) as (_ & _ & _ & (t & Ht & Hsd) & Hed).
  rewrite (time_facts.Format_Parse _ _ Ht) in Hsd.
  unfold handlers.validateSubReq in Hv.
  destruct (String.eqb (req_ServiceName sub) ""); [ discriminate | ].
  destruct (req_Price sub <=? 0); [ discriminate | ].
  destruct (uuid_eqb (req_UserID sub) uuid_Nil); [ discriminate | ].
  rewrite Ht in Hv.
  destruct sub as [name price user start end_]. cbn in *.
  destruct end_ as [end_text |].
  - destruct Hed as (te & Hte & ->). rewrite Hte in Hv.
    rewrite (time_facts.Format_Parse _ _ Hte) in *.
    injection Hv as <- _. repeat split; assumption.
  - injection Hv as <- _. subst ed. repeat split; assumption.
Qed.

Lemma validateSubReq_returns_the_input_witness :
  sample.netflix_2025 = sample.netflix_2025
  /\ "01-2025" = req_StartDate sample.netflix_2025
  /\ Some "12-2025" = req_EndDate sample.netflix_2025.
Proof.
  exact (validateSubReq_returns_the_input sample.netflix_2025 sample.netflix_2025
           "01-2025" (Some "12-2025") eq_refl).
Defined.

(** X12. [validateSubReq] accepts a payload exactly when its service
    name is not empty, its price is positive, its user id is not nil,
    and its start date, and its end date when there is one, is a text of
    two digits, a dash and four digits with a month from 01 to 12. *)
Theorem validateSubReq_accepts_iff (sub : SubReq) :
  snd (snd (handlers.validateSubReq sub)) = None
  <-> req_ServiceName sub <> ""
      /\ 0 < req_Price sub
      /\ req_UserID sub <> uuid_Nil
      /\ month_text (req_StartDate sub) = true
      /\ forall end_date, req_EndDate sub = Some end_date -> month_text end_date = true.
Proof.
  unfold handlers.validateSubReq.
  destruct (String.eqb_spec (req_ServiceName sub) "") as [Hn | Hn].
  { split; [ discriminate | ]. intros (H & _). now destruct H. }
  destruct (Z.leb_spec (req_Price sub) 0) as [Hp | Hp].
  { split; [ discriminate | ]. intros (_ & H & _). lia. }
  unfold uuid_eqb.
  destruct (N.eqb_spec (req_UserID sub) uuid_Nil) as [Hu | Hu].
  { split; [ discriminate | ]. intros (_ & _ & H & _). now destruct H. }
  destruct (time.Parse_01_2006 (req_StartDate sub)) as [t |] eqn:Ht.
  - assert (Hstart : month_text (req_StartDate sub) = true)
      by (apply Parse_iff_month_text; now exists t).
    destruct (req_EndDate sub) as [end_text |].
    + destruct (time.Parse_01_2006 end_text) as [te |] eqn:Hte; cbn [snd].
      * split; [ intros _ | reflexivity ].
        repeat split; try assumption.
        intros end_date H. injection H as <-.
        apply Parse_iff_month_text. now exists te.
      * split; [ discriminate | ]. intros (_ & _ & _ & _ & H).
        specialize (H end_text eq_refl). apply Parse_iff_month_text in H.
        destruct H as [te H]. congruence.
    + cbn [snd]. split; [ intros _ | reflexivity ].
      repeat split; try assumption. discriminate.
  - cbn [snd]. split; [ discriminate | ]. intros (_ & _ & _ & H & _).
    apply Parse_iff_month_text in H. destruct H as [t H]. congruence.
Qed.

Lemma validateSubReq_accepts_iff_witness :
  snd (snd (handlers.validateSubReq (mkSubReq "Netflix" 15 7%N "13-2025" None)))
  <> None.
Proof.
  intro H.
  apply (validateSubReq_accepts_iff (mkSubReq "Netflix" 15 7%N "13-2025" None)) in H.
  destruct H as (_ & _ & _ & H & _). discriminate H.
Defined.

(** X13. The month text that [GetSummary] of the service formats from a
    timestamp with a four-digit year is accepted by the layout of the
    validation, and reads back as the month and year of the timestamp. *)
Theorem Parse_of_Format (t : Time) :
  four_digit_year t ->
  time.Parse_01_2006 (time.Format_01_2006 t)
  = Some (mkTime (year t) (month t) 1 0 0 0 0 0).
Proof.
  intros [Hm Hy].
  unfold time.Format_01_2006, time.appendInt.
  replace (month t <? 0) with false by (symmetry; apply Z.ltb_ge; lia).
  replace (year t <? 0) with false by (symmetry; apply Z.ltb_ge; lia).
  rewrite !Z.abs_eq by lia.
  replace (month t <? 100) with true by (symmetry; apply Z.ltb_lt; lia).
  replace (year t <? 10000) with true by (symmetry; apply Z.ltb_lt; lia).
  cbn [Z.eqb Pos.eqb andb append].
  pose proof (Z.div_mod (month t) 10 ltac:(lia)) as Em.
  pose proof (Z.mod_pos_bound (month t) 10 ltac:(lia)) as Bm.
  pose proof (Z.div_mod (year t) 100 ltac:(lia)) as Ey.
  pose proof (Z.mod_pos_bound (year t) 100 ltac:(lia)) as By.
  pose proof (Z.div_mod (year t / 100) 10 ltac:(lia)) as Eh.
  pose proof (Z.mod_pos_bound (year t / 100) 10 ltac:(lia)) as Bh.
  pose proof (Z.div_mod (year t mod 100) 10 ltac:(lia)) as El.
  pose proof (Z.mod_pos_bound (year t mod 100) 10 ltac:(lia)) as Bl.
  set (m1 := month t / 10) in *. set (m0 := month t mod 10) in *.
  set (y3 := year t / 100 / 10) in *. set (y2 := (year t / 100) mod 10) in *.
  set (y1 := (year t mod 100) / 10) in *. set (y0 := (year t mod 100) mod 10) in *.
  set (yh := year t / 100) in *. set (yl := year t mod 100) in *.
  assert (R1 : 0 <= m1 <= 9) by lia.
  assert (R3 : 0 <= y3 <= 9) by lia.
  assert (R2 : 0 <= y1 <= 9) by lia.
  unfold time.Parse_01_2006, time.getnum_fixed.
  rewrite !time_facts.isDigit_digit_char by lia. cbn [andb].
  rewrite !digit_val_char by lia.
  replace (m1 * 10 + m0 <=? 0) with false by (symmetry; apply Z.leb_gt; lia).
  replace (12 <? m1 * 10 + m0) with false by (symmetry; apply Z.ltb_ge; lia).
  cbn [orb time.skip_dash Ascii.eqb Bool.eqb time.get_long_year time.atoi_digits].
  rewrite !time_facts.isDigit_digit_char by lia.
  rewrite !digit_val_char by lia.
  do 2 f_equal; lia.
Qed.

Lemma Parse_of_Format_witness :
  time.Parse_01_2006 (time.Format_01_2006 sample.december_2025)
  = Some (mkTime 2025 12 1 0 0 0 0 0).
Proof.
  apply (Parse_of_Format sample.december_2025). split; cbn; lia.
Defined.

(** * Further properties of the handlers *)

Module serve_facts.

Lemma Code_sendResponse (data : any) (message : string) (status : Z) :
  handlers.Code (handlers.sendResponse handlers.NewRecorder data message status)
  = Some status.
Proof. reflexivity. Qed.

(** All the paths of a route served against a recorded service. *)
Ltac serve_cases route :=
  unfold serve_recorded;
  destruct route; cbn [handlers.ServeHTTP];
  unfold handlers.CreateSubs, handlers.GetSubs, handlers.UpdateSubs,
    handlers.DeleteSubs, handlers.GetSummary, handlers.ListSubs;
  unfold handlers.uuid_New, handlers.call, handlers.recording,
    handlers.record_res, handlers.record_err;
  cbn [handlers.s_CreateSubs handlers.s_UpdateSubs handlers.s_DeleteSubs
         handlers.s_ListSubs handlers.s_GetSummary handlers.s_GetSub
         handlers.s_SubscriptionExists handlers.svc_state handlers.rand
         handlers.inner handlers.calls];
  handler_facts.handler_cases;
  cbn [fst snd handlers.svc_state handlers.calls handlers.inner app];
  rewrite ?Code_sendResponse.

(** The guard [err != nil || !exists] cannot be false after an error. *)
Ltac absurd_guard :=
  match goal with
  | H : true || _ = false |- _ => discriminate H
  end.

End serve_facts.

(** X14. On every route, a response 400 means that the handler made no
    call to the service, whose state is as it was: missing and malformed
    parameters, undecodable bodies and invalid payloads stop in the
    handler. *)
Theorem bad_request_makes_no_call
    (uuid_Parse : string -> option UUID)
    (Decode_SubReq : string -> option SubReq)
    (Decode_GetSummaryReq : string -> option GetSummaryReq)
    {S : Type} (service : handlers.subscriptionService S)
    (route : handlers.Route) (r : handlers.Request) (s : S) (rand : nat -> N) :
  let result :=
    serve_recorded uuid_Parse Decode_SubReq Decode_GetSummaryReq service
      route r s rand in
  handlers.Code (fst result) = Some 400 ->
  handlers.calls (handlers.svc_state (snd result)) = []
  /\ handlers.inner (handlers.svc_state (snd result)) = s.
Proof.
  intro result. subst result.
  serve_facts.serve_cases route; intro H400;
    first [ discriminate H400 | split; reflexivity ].
Qed.

Lemma bad_request_makes_no_call_witness :
  handlers.calls
    (handlers.svc_state
       (snd (serve_recorded sample.uuid_Parse sample.Decode_SubReq
               sample.Decode_GetSummaryReq sample.stack handlers.PUT_subscriptions
               (sample.put sample.id1_text "bad_price_and_user")
               sample.two_rows (fun _ => 5%N))))
  = []
  /\ handlers.inner
       (handlers.svc_state
          (snd (serve_recorded sample.uuid_Parse sample.Decode_SubReq
                  sample.Decode_GetSummaryReq sample.stack handlers.PUT_subscriptions
                  (sample.put sample.id1_text "bad_price_and_user")
                  sample.two_rows (fun _ => 5%N))))
     = sample.two_rows.
Proof.
  apply (bad_request_makes_no_call sample.uuid_Parse sample.Decode_SubReq
           sample.Decode_GetSummaryReq sample.stack handlers.PUT_subscriptions
           (sample.put sample.id1_text "bad_price_and_user") sample.two_rows
           (fun _ => 5%N)).
  reflexivity.
Defined.

(** X15. The status code of a response is 200, 400, 404 or 500, and only
    the update route answers 404. *)
Theorem status_codes_of_the_routes
    (uuid_Parse : string -> option UUID)
    (Decode_SubReq : string -> option SubReq)
    (Decode_GetSummaryReq : string -> option GetSummaryReq)
    {S : Type} (service : handlers.subscriptionService S)
    (route : handlers.Route) (r : handlers.Request) (s : S) (rand : nat -> N) :
  let code :=
    handlers.Code
      (fst (serve_recorded uuid_Parse Decode_SubReq Decode_GetSummaryReq service
              route r s rand)) in
  (code = Some 200 \/ code = Some 400 \/ code = Some 404 \/ code = Some 500)
  /\ (code = Some 404 -> route = handlers.PUT_subscriptions).
Proof.
  intro code. subst code.
  serve_facts.serve_cases route;
    (split; [ auto | first [ reflexivity | discriminate ] ]).
Qed.

(** X16. A response 200 means that the handler called the service and
    that no call returned an error; a response 500 means that the last
    call returned an error. *)
Theorem success_means_no_failed_call
    (uuid_Parse : string -> option UUID)
    (Decode_SubReq : string -> option SubReq)
    (Decode_GetSummaryReq : string -> option GetSummaryReq)
    {S : Type} (service : handlers.subscriptionService S)
    (route : handlers.Route) (r : handlers.Request) (s : S) (rand : nat -> N) :
  let result :=
    serve_recorded uuid_Parse Decode_SubReq Decode_GetSummaryReq service
      route r s rand in
  (handlers.Code (fst result) = Some 200 ->
   handlers.calls (handlers.svc_state (snd result)) <> []
   /\ forall c e, ~ In (c, Some e) (handlers.calls (handlers.svc_state (snd result))))
  /\ (handlers.Code (fst result) = Some 500 ->
      exists c e, last (handlers.calls (handlers.svc_state (snd result)))
                    (c, None) = (c, Some e)).
Proof.
  intro result. subst result.
  serve_facts.serve_cases route;
    (split;
     [ intro H200;
       first
         [ discriminate H200
         | serve_facts.absurd_guard
         | split;
           [ discriminate
           | intros ? ? Hin; cbn [In] in Hin;
             repeat match type of Hin with
                    | _ \/ _ => destruct Hin as [Hin | Hin]
                    | False => destruct Hin
                    end; discriminate Hin ] ]
     | intro H500;
       first [ discriminate H500
             | cbn [last]; eexists; eexists; reflexivity ] ]).
Qed.

Lemma success_means_no_failed_call_witness :
  handlers.calls (handlers.svc_state (snd sample.update_of_row1)) <> [].
Proof.
  apply (proj1 (success_means_no_failed_call sample.uuid_Parse sample.Decode_SubReq
                  sample.Decode_GetSummaryReq sample.stack handlers.PUT_subscriptions
                  (sample.put sample.id1_text "netflix") sample.two_rows
                  (fun n => N.of_nat n + 1000)%N)).
  reflexivity.
Defined.

Lemma status_codes_of_the_routes_witness :
  let code :=
    handlers.Code
      (fst (serve_recorded sample.uuid_Parse sample.Decode_SubReq
              sample.Decode_GetSummaryReq sample.stack handlers.GET_subscriptions
              (sample.put sample.id1_text "") sample.two_rows (fun _ => 5%N))) in
  code = Some 200 \/ code = Some 400 \/ code = Some 404 \/ code = Some 500.
Proof.
  exact (proj1 (status_codes_of_the_routes sample.uuid_Parse sample.Decode_SubReq
                  sample.Decode_GetSummaryReq sample.stack handlers.GET_subscriptions
                  (sample.put sample.id1_text "") sample.two_rows (fun _ => 5%N))).
Defined.

(** X17. A handler calls only the service method of its own route, at
    most once, except the update handler, which may call the update
    after the existence check: an update call is always the second call,
    after an existence check of the same id that answered without error. *)
Theorem calls_of_the_routes
    (uuid_Parse : string -> option UUID)
    (Decode_SubReq : string -> option SubReq)
    (Decode_GetSummaryReq : string -> option GetSummaryReq)
    {S : Type} (service : handlers.subscriptionService S)
    (route : handlers.Route) (r : handlers.Request) (s : S) (rand : nat -> N) :
  let log :=
    handlers.calls
      (handlers.svc_state
         (snd (serve_recorded uuid_Parse Decode_SubReq Decode_GetSummaryReq service
                 route r s rand))) in
  (forall c e, In (c, e) log -> route_of_call c = route)
  /\ (List.length log <= 2)%nat
  /\ (route <> handlers.PUT_subscriptions -> (List.length log <= 1)%nat)
  /\ (forall id newSubs e,
         In (handlers.CallUpdateSubs id newSubs, e) log ->
         log = [(handlers.CallSubscriptionExists id, None);
                (handlers.CallUpdateSubs id newSubs, e)]).
Proof.
  intro log. subst log.
  serve_facts.serve_cases route;
    try serve_facts.absurd_guard;
    (split;
     [ intros ? ? Hin; cbn [In] in Hin;
       repeat match type of Hin with
              | _ \/ _ => destruct Hin as [Hin | Hin]
              | False => destruct Hin
              end;
       injection Hin as <- _; reflexivity
     | split;
       [ cbn [List.length]; lia
       | split;
         [ intro Hroute; first [ cbn [List.length]; lia | now destruct Hroute ]
         | intros ? ? ? Hin; cbn [In] in Hin;
           repeat match type of Hin with
                  | _ \/ _ => destruct Hin as [Hin | Hin]
                  | False => destruct Hin
                  end;
           first [ discriminate Hin | injection Hin as <- <- <-; reflexivity ] ] ] ]).
Qed.

Lemma calls_of_the_routes_witness :
  handlers.calls (handlers.svc_state (snd sample.update_of_row1))
  = [(handlers.CallSubscriptionExists sample.id1, None);
     (handlers.CallUpdateSubs sample.id1
        (mkSubscription 302240678275694148453352%N "Netflix" 15 sample.user
           "01-2025" None), None)].
Proof.
  apply (proj2 (proj2 (proj2
           (calls_of_the_routes sample.uuid_Parse sample.Decode_SubReq
              sample.Decode_GetSummaryReq sample.stack handlers.PUT_subscriptions
              (sample.put sample.id1_text "netflix") sample.two_rows
              (fun n => N.of_nat n + 1000)%N)))).
  right. left. reflexivity.
Defined.

Module stack_facts.

(** All the paths of a route served by the SQL repository. *)
Ltac stack_cases route :=
  destruct route; cbn [handlers.ServeHTTP];
  unfold handlers.CreateSubs, handlers.GetSubs, handlers.UpdateSubs,
    handlers.DeleteSubs, handlers.GetSummary, handlers.ListSubs;
  unfold handlers.uuid_New, handlers.call, handlers.SubscriptionService,
    service.CreateSubs, service.UpdateSubs, service.DeleteSubs, service.ListSubs,
    service.GetSummary, service.GetSub, service.SubscriptionExists,
    service.Repository,
    repository.CreateSubs, repository.UpdateSubs, repository.DeleteSubs,
    repository.ListSubs, repository.GetSummary, repository.GetSub,
    repository.SubscriptionExists;
  cbn [handlers.s_CreateSubs handlers.s_UpdateSubs handlers.s_DeleteSubs
         handlers.s_ListSubs handlers.s_GetSummary handlers.s_GetSub
         handlers.s_SubscriptionExists service.r_CreateSubs service.r_UpdateSubs
         service.r_DeleteSubs service.r_ListSubs service.r_GetSummary
         service.r_GetSub service.r_SubscriptionExists
         handlers.svc_state handlers.rand];
  handler_facts.handler_cases;
  cbn [fst snd handlers.svc_state repository.table] in *.

(** The tables along the round trips of a path are the same. *)
Ltac same_tables :=
  repeat match goal with
         | H : repository.round_trip _ = (_, _) |- _ =>
             apply repository_facts.round_trip_table in H
         end.

End stack_facts.

(** X18. With the SQL repository behind the service, the table is
    changed by no request that is answered with another status than 200,
    and by no request of the fetch, list and summary routes. *)
Theorem only_successful_writes_change_the_table
    (uuid_Parse : string -> option UUID)
    (Decode_SubReq : string -> option SubReq)
    (Decode_GetSummaryReq : string -> option GetSummaryReq)
    (text_le : string -> string -> bool) (schema_ok : list Subscription -> bool)
    (route : handlers.Route) (r : handlers.Request) (db : repository.DB)
    (rand : nat -> N) :
  let result :=
    handlers.ServeHTTP uuid_Parse Decode_SubReq Decode_GetSummaryReq
      (handlers.SubscriptionService (service.Repository text_le schema_ok))
      route handlers.NewRecorder r (handlers.mkWorld db rand) in
  (handlers.Code (fst result) <> Some 200
   \/ route = handlers.GET_subscriptions
   \/ route = handlers.GET_all_subscriptions
   \/ route = handlers.POST_subscriptions_summary) ->
  repository.table (handlers.svc_state (snd result)) = repository.table db.
Proof.
  intro result. subst result.
  stack_facts.stack_cases route;
    rewrite ?serve_facts.Code_sendResponse;
    intro H; stack_facts.same_tables;
    try congruence;
    destruct H as [H | [H | [H | H]]];
    solve [ discriminate H | now destruct H ].
Qed.

Lemma only_successful_writes_change_the_table_witness :
  repository.table
    (handlers.svc_state
       (snd (handlers.ServeHTTP sample.uuid_Parse sample.Decode_SubReq
               sample.Decode_GetSummaryReq
               (handlers.SubscriptionService
                  (service.Repository sample.text_le migrations.schema))
               handlers.DELETE_subscriptions handlers.NewRecorder
               (sample.put sample.id1_text "")
               (handlers.mkWorld (repository.mkDB [sample.row1] [true])
                  (fun _ => 5%N)))))
  = [sample.row1].
Proof.
  apply (only_successful_writes_change_the_table sample.uuid_Parse
           sample.Decode_SubReq sample.Decode_GetSummaryReq sample.text_le
           migrations.schema handlers.DELETE_subscriptions
           (sample.put sample.id1_text "")
           (repository.mkDB [sample.row1] [true]) (fun _ => 5%N)).
  left. discriminate.
Defined.

Lemma month_text_pattern (s : string) :
  month_text s = true -> repository.date_pattern s = true.
Proof.
  unfold month_text. destruct s as [| a [| b s]]; try discriminate.
  rewrite !andb_true_iff. now intros [[H _] _].
Qed.

Lemma unique_ids_snoc (rows : list Subscription) (row : Subscription) :
  repository.unique_ids rows = true ->
  (forall other, In other rows -> ID other <> ID row) ->
  repository.unique_ids (rows ++ [row]) = true.
Proof.
  induction rows as [| r0 rows IH]; intros Hu Hfresh; [ reflexivity | ].
  cbn in Hu |- *. apply andb_true_iff in Hu. destruct Hu as [Hr0 Hrest].
  apply andb_true_iff. split.
  - rewrite existsb_app. cbn. apply negb_true_iff in Hr0. rewrite Hr0.
    cbn. rewrite orb_false_r. apply negb_true_iff. apply N.eqb_neq.
    intro Heq. apply (Hfresh r0 (or_introl eq_refl)). now symmetry.
  - apply IH; [ assumption | ]. intros other Hin. apply Hfresh. now right.
Qed.

Lemma ascii_text_no_NUL (s : string) :
  migrations.ascii_text s = true -> migrations.no_NUL s = true.
Proof.
  induction s as [| c s IH]; [ reflexivity | ].
  cbn. rewrite !andb_true_iff. intros [[Hlo _] Hrest].
  split; [ | now apply IH ].
  destruct (nat_of_ascii c); [ discriminate Hlo | reflexivity ].
Qed.

(** X19. With the SQL repository and the schema of the migration, on a
    table that satisfies the schema and when no round trip fails, a
    create request whose payload passes validation, whose service name
    is an ASCII text without NUL of at most 255 characters and whose
    price fits an [INTEGER], and whose generated id is new to the table,
    is answered 200 with the entity made of the generated id and the
    payload as sent; the entity becomes the last row; and a fetch of
    that id is then answered 200 with the same entity, an absent end date
    staying absent. *)
Theorem create_then_fetch
    (uuid_Parse : string -> option UUID)
    (Decode_SubReq : string -> option SubReq)
    (text_le : string -> string -> bool)
    (r : handlers.Request) (rows : list Subscription) (rand : nat -> N)
    (sub : SubReq) :
  Decode_SubReq (handlers.Body r) = Some sub ->
  snd (snd (handlers.validateSubReq sub)) = None ->
  migrations.ascii_text (req_ServiceName sub) = true ->
  (String.length (req_ServiceName sub) <= 255)%nat ->
  req_Price sub <= migrations.INTEGER_max ->
  migrations.schema rows = true ->
  (forall row, In row rows -> ID row <> handlers.uuid_v4 (rand 0%nat)) ->
  let entity :=
    mkSubscription (handlers.uuid_v4 (rand 0%nat)) (req_ServiceName sub)
      (req_Price sub) (req_UserID sub) (req_StartDate sub) (req_EndDate sub) in
  let created :=
    handlers.CreateSubs Decode_SubReq (sql_stack text_le) handlers.NewRecorder r
      (handlers.mkWorld (repository.mkDB rows []) rand) in
  fst created
  = handlers.sendResponse handlers.NewRecorder (DataSubscription entity)
      "Successfully created subscription" 200
  /\ handlers.svc_state (snd created) = repository.mkDB (rows ++ [entity]) []
  /\ forall r',
      handlers.Query_Get (handlers.URL_Query r') "id" <> "" ->
      uuid_Parse (handlers.Query_Get (handlers.URL_Query r') "id")
      = Some (handlers.uuid_v4 (rand 0%nat)) ->
      fst (handlers.GetSubs uuid_Parse (sql_stack text_le) handlers.NewRecorder r'
             (snd created))
      = handlers.sendResponse handlers.NewRecorder (DataSubscription entity)
          "Successfully get subscriptions" 200.
Proof.
  intros Hdec Hvalid Hascii Hname Hprice Hschema Hfresh entity created.
  destruct (validateSubReq_accepted sub Hvalid) as (Hv & Hpos & Hstart & Hend).
  assert (Hrow : migrations.row_ok entity = true).
  { unfold migrations.row_ok, entity. cbn [ServiceName Price StartDate EndDate].
    rewrite !andb_true_iff. repeat split.
    - now apply ascii_text_no_NUL.
    - now apply Nat.leb_le.
    - now apply Z.ltb_lt.
    - now apply Z.leb_le.
    - now apply month_text_pattern.
    - destruct (req_EndDate sub) as [end_date |]; [ | reflexivity ].
      apply month_text_pattern. now apply Hend. }
  assert (Hnew : migrations.schema (rows ++ [entity]) = true).
  { unfold migrations.schema in *. apply andb_true_iff in Hschema.
    destruct Hschema as [Hall Huniq]. apply andb_true_iff. split.
    - rewrite forallb_app, Hall. cbn. now rewrite Hrow.
    - now apply unique_ids_snoc. }
  assert (Hcreated :
            created
            = (handlers.sendResponse handlers.NewRecorder (DataSubscription entity)
                 "Successfully created subscription" 200,
               handlers.mkWorld (repository.mkDB (rows ++ [entity]) [])
                 (fun n => rand (Nat.succ n)))).
  { subst created. unfold handlers.CreateSubs. rewrite Hdec, Hv.
    unfold handlers.uuid_New, handlers.call, sql_stack, handlers.SubscriptionService,
      service.CreateSubs, service.Repository, repository.CreateSubs.
    cbn [handlers.s_CreateSubs service.r_CreateSubs handlers.svc_state handlers.rand
           repository.round_trip repository.outages repository.table].
    fold entity. now rewrite Hnew. }
  rewrite Hcreated. cbn [fst snd handlers.svc_state].
  split; [ reflexivity | ]. split; [ reflexivity | ].
  intros r' Hid Hparse.
  unfold handlers.GetSubs. apply String.eqb_neq in Hid. rewrite Hid, Hparse.
  unfold handlers.call, sql_stack, handlers.SubscriptionService, service.GetSub,
    service.Repository, repository.GetSub.
  cbn [handlers.s_GetSub service.r_GetSub handlers.svc_state repository.round_trip
         repository.outages repository.table].
  rewrite find_snoc.
  assert (Hnone : find (fun row => uuid_eqb (ID row) (handlers.uuid_v4 (rand 0%nat)))
                    rows = None).
  { destruct (find _ rows) as [row |] eqn:Hfind; [ | reflexivity ].
    apply find_some in Hfind. destruct Hfind as [Hin Heq].
    apply N.eqb_eq in Heq. now destruct (Hfresh row Hin). }
  rewrite Hnone. unfold uuid_eqb, entity at 1. cbn [ID].
  now rewrite N.eqb_refl.
Qed.

Lemma create_then_fetch_witness :
  fst (handlers.CreateSubs sample.Decode_SubReq (sql_stack sample.text_le)
         handlers.NewRecorder (handlers.mkRequest [] "netflix")
         (handlers.mkWorld (repository.mkDB [sample.row2] [])
            (fun n => N.of_nat n + 1000)%N))
  = handlers.sendResponse handlers.NewRecorder
      (DataSubscription
         (mkSubscription 302240678275694148453352%N "Netflix" 15 sample.user
            "01-2025" None))
      "Successfully created subscription" 200
  /\ fst (handlers.GetSubs sample.uuid_Parse (sql_stack sample.text_le)
            handlers.NewRecorder
            (sample.put "00000000-0000-4000-8000-0000000003e8" "")
            (snd (handlers.CreateSubs sample.Decode_SubReq (sql_stack sample.text_le)
                    handlers.NewRecorder (handlers.mkRequest [] "netflix")
                    (handlers.mkWorld (repository.mkDB [sample.row2] [])
                       (fun n => N.of_nat n + 1000)%N))))
     = handlers.sendResponse handlers.NewRecorder
         (DataSubscription
            (mkSubscription 302240678275694148453352%N "Netflix" 15 sample.user
               "01-2025" None))
         "Successfully get subscriptions" 200.
Proof.
  pose proof (create_then_fetch sample.uuid_Parse sample.Decode_SubReq sample.text_le
                (handlers.mkRequest [] "netflix") [sample.row2]
                (fun n => N.of_nat n + 1000)%N sample.netflix) as H.
  destruct H as (Hcreate & _ & Hfetch).
  - reflexivity.
  - reflexivity.
  - reflexivity.
  - cbn. lia.
  - cbn. unfold migrations.INTEGER_max. lia.
  - reflexivity.
  - intros row [<- | []]. discriminate.
  - split; [ exact Hcreate | ].
    apply Hfetch; [ discriminate | reflexivity ].
Defined.

(** X20. With the SQL repository and a reachable store, a delete request
    with a well-formed id is answered 200 whether or not a row has the
    id; it leaves the rows with another id, in order; and a fetch of the
    id is then answered 500. *)
Theorem delete_then_fetch
    (uuid_Parse : string -> option UUID)
    (text_le : string -> string -> bool) (schema_ok : list Subscription -> bool)
    (r : handlers.Request) (id : UUID) (rows : list Subscription) (rand : nat -> N) :
  handlers.Query_Get (handlers.URL_Query r) "id" <> "" ->
  uuid_Parse (handlers.Query_Get (handlers.URL_Query r) "id") = Some id ->
  let stack := handlers.SubscriptionService (service.Repository text_le schema_ok) in
  let deleted :=
    handlers.DeleteSubs uuid_Parse stack handlers.NewRecorder r
      (handlers.mkWorld (repository.mkDB rows []) rand) in
  fst deleted
  = handlers.sendResponse handlers.NewRecorder DataNil
      "Successfully deleted subscription" 200
  /\ repository.table (handlers.svc_state (snd deleted))
     = filter (fun row => negb (uuid_eqb (ID row) id)) rows
  /\ fst (handlers.GetSubs uuid_Parse stack handlers.NewRecorder r (snd deleted))
     = handlers.sendResponse handlers.NewRecorder DataNil
         "Failed to get subscription" 500.
Proof.
  intros Hid Hparse stack deleted. subst deleted stack.
  unfold handlers.DeleteSubs, handlers.GetSubs.
  apply String.eqb_neq in Hid. rewrite Hid, Hparse.
  unfold handlers.call, handlers.SubscriptionService, service.DeleteSubs,
    service.GetSub, service.Repository, repository.DeleteSubs, repository.GetSub.
  cbn [handlers.s_DeleteSubs handlers.s_GetSub service.r_DeleteSubs service.r_GetSub
         handlers.svc_state repository.round_trip repository.outages repository.table
         fst snd].
  split; [ reflexivity | ]. split; [ reflexivity | ].
  destruct (find _ (filter _ rows)) as [row |] eqn:Hfind; [ | reflexivity ].
  apply find_some in Hfind. destruct Hfind as [Hin Heq].
  apply filter_In in Hin. destruct Hin as [_ Hne].
  rewrite Heq in Hne. discriminate Hne.
Qed.

Lemma delete_then_fetch_witness :
  fst (handlers.DeleteSubs sample.uuid_Parse
         (handlers.SubscriptionService
            (service.Repository sample.text_le migrations.schema))
         handlers.NewRecorder (sample.put sample.id1_text "")
         (handlers.mkWorld (repository.mkDB [sample.row2] []) (fun _ => 5%N)))
  = handlers.sendResponse handlers.NewRecorder DataNil
      "Successfully deleted subscription" 200.
Proof.
  apply (delete_then_fetch sample.uuid_Parse sample.text_le migrations.schema
           (sample.put sample.id1_text "") sample.id1 [sample.row2] (fun _ => 5%N)).
  - discriminate.
  - reflexivity.
Defined.

(** X21. With the SQL repository and when the round trip does not fail,
    for a [serviceName] parameter that is absent or an ASCII text
    without NUL, the list route answers 400 when the [userId] parameter
    is present and malformed; otherwise it answers 200 with the rows, in
    the table's order, of the user when [userId] is present and of the
    service when [serviceName] is present, an absent or empty parameter
    being no filter. *)
Theorem list_route_filters
    (uuid_Parse : string -> option UUID)
    (text_le : string -> string -> bool) (schema_ok : list Subscription -> bool)
    (r : handlers.Request) (rows : list Subscription) (rand : nat -> N) :
  migrations.ascii_text (handlers.Query_Get (handlers.URL_Query r) "serviceName")
  = true ->
  let userIdStr := handlers.Query_Get (handlers.URL_Query r) "userId" in
  let serviceName := handlers.Query_Get (handlers.URL_Query r) "serviceName" in
  let listed :=
    fst (handlers.ListSubs uuid_Parse
           (handlers.SubscriptionService (service.Repository text_le schema_ok))
           handlers.NewRecorder r (handlers.mkWorld (repository.mkDB rows []) rand)) in
  (userIdStr <> "" -> uuid_Parse userIdStr = None ->
   listed = handlers.sendResponse handlers.NewRecorder DataNil
              "Invalid user id parameter" 400)
  /\ (forall user : option UUID,
         (userIdStr = "" /\ user = None
          \/ userIdStr <> "" /\ user <> None /\ uuid_Parse userIdStr = user) ->
         listed
         = handlers.sendResponse handlers.NewRecorder
             (DataSubscriptions
                (filter
                   (fun row =>
                      match user with
                      | Some u => uuid_eqb (UserID row) u
                      | None => true
                      end
                      && (String.eqb serviceName ""
                          || String.eqb (ServiceName row) serviceName))
                   rows))
             "Successfully get list subs" 200).
Proof.
  intros _ userIdStr serviceName listed. subst listed.
  unfold handlers.ListSubs. fold userIdStr serviceName.
  unfold handlers.call, handlers.SubscriptionService, service.ListSubs,
    service.Repository, repository.ListSubs, repository.list_where.
  cbn [handlers.s_ListSubs service.r_ListSubs handlers.svc_state
         repository.round_trip repository.outages repository.table fst snd
         flt_UserID flt_ServiceName].
  split.
  - intros Hne Hparse. apply String.eqb_neq in Hne. rewrite Hne, Hparse. reflexivity.
  - intros user [[Hempty ->] | (Hne & Hsome & Hparse)].
    + rewrite Hempty. cbn [String.eqb negb repository.null_or_uuid fst].
      unfold handlers.StatusOK. do 2 f_equal. apply filter_ext. intro row.
      destruct (String.eqb serviceName ""); reflexivity.
    + apply String.eqb_neq in Hne. rewrite Hne, Hparse. cbn [negb].
      destruct user as [u |]; [ | now destruct Hsome ].
      cbn [repository.null_or_uuid fst].
      unfold handlers.StatusOK. do 2 f_equal. apply filter_ext. intro row.
      destruct (String.eqb serviceName ""); reflexivity.
Qed.

Lemma list_route_filters_witness :
  fst (handlers.ListSubs sample.uuid_Parse
         (handlers.SubscriptionService
            (service.Repository sample.text_le migrations.schema))
         handlers.NewRecorder (handlers.mkRequest [("serviceName", "Netflix")] "")
         (handlers.mkWorld sample.two_rows (fun _ => 5%N)))
  = handlers.sendResponse handlers.NewRecorder (DataSubscriptions [sample.row2])
      "Successfully get list subs" 200.
Proof.
  apply (proj2 (list_route_filters sample.uuid_Parse sample.text_le migrations.schema
                  (handlers.mkRequest [("serviceName", "Netflix")] "")
                  [sample.row1; sample.row2] (fun _ => 5%N) eq_refl) None).
  left. split; reflexivity.
Defined.

Lemma Header_sendResponse (w : handlers.ResponseWriter) (data : any)
    (message : string) (status : Z) :
  handlers.Code w = None ->
  Header_Get "Content-Type" (handlers.sendResponse w data message status)
  = Some "application/json".
Proof.
  intro Hcode.
  unfold handlers.sendResponse, handlers.Encode, handlers.WriteHeader,
    handlers.Header_Set, Header_Get.
  rewrite Hcode. reflexivity.
Qed.

(** X22. On every route, when no status code has been written to the
    writer before, the response of a handler carries the header
    [Content-Type] with the value [application/json], whatever headers
    were set before. *)
Theorem responses_are_json
    (uuid_Parse : string -> option UUID)
    (Decode_SubReq : string -> option SubReq)
    (Decode_GetSummaryReq : string -> option GetSummaryReq)
    {S : Type} (service : handlers.subscriptionService S)
    (route : handlers.Route) (w : handlers.ResponseWriter) (r : handlers.Request)
    (st : handlers.World S) :
  handlers.Code w = None ->
  Header_Get "Content-Type"
    (fst (handlers.ServeHTTP uuid_Parse Decode_SubReq Decode_GetSummaryReq service
            route w r st))
  = Some "application/json".
Proof.
  intro Hcode.
  destruct route; cbn [handlers.ServeHTTP];
    unfold handlers.CreateSubs, handlers.GetSubs, handlers.UpdateSubs,
      handlers.DeleteSubs, handlers.GetSummary, handlers.ListSubs;
    handler_facts.handler_cases; cbn [fst]; now apply Header_sendResponse.
Qed.

Lemma responses_are_json_witness :
  Header_Get "Content-Type"
    (fst (handlers.ServeHTTP sample.uuid_Parse sample.Decode_SubReq
            sample.Decode_GetSummaryReq sample.stack handlers.GET_all_subscriptions
            (handlers.mkResponseWriter [("Content-Type", "text/plain")] None [])
            (handlers.mkRequest [] "")
            (handlers.mkWorld sample.two_rows (fun _ => 5%N))))
  = Some "application/json".
Proof.
  apply (responses_are_json sample.uuid_Parse sample.Decode_SubReq
           sample.Decode_GetSummaryReq sample.stack handlers.GET_all_subscriptions
           (handlers.mkResponseWriter [("Content-Type", "text/plain")] None [])
           (handlers.mkRequest [] "")
           (handlers.mkWorld sample.two_rows (fun _ => 5%N))).
  reflexivity.
Defined.

(** X23. Behind the rate limiter, a request that the limiter refuses is
    answered 429 with the envelope of status 429 and message "Too many
    requests", and the handler is not run: the service and the random
    source are as they were.  A request that it allows is answered by the
    route's handler.  In both cases, on a writer nothing was written to,
    exactly one envelope is written and its status is the status code of
    the response. *)
Theorem rate_limited_chain
    (uuid_Parse : string -> option UUID)
    (Decode_SubReq : string -> option SubReq)
    (Decode_GetSummaryReq : string -> option GetSummaryReq)
    {S : Type} (service : handlers.subscriptionService S)
    (route : handlers.Route) (w : handlers.ResponseWriter) (r : handlers.Request)
    (limiter : middleware.Limiter) (st : handlers.World S) :
  handlers.untouched w ->
  let served :=
    middleware.RunRouter uuid_Parse Decode_SubReq Decode_GetSummaryReq service route
      w r (limiter, st) in
  (limiter 0%nat = false ->
   handlers.Code (fst served) = Some 429
   /\ handlers.Written (fst served) = [mkResponse 429 "Too many requests" DataNil]
   /\ snd (snd served) = st)
  /\ (limiter 0%nat = true ->
      (fst served, snd (snd served))
      = handlers.ServeHTTP uuid_Parse Decode_SubReq Decode_GetSummaryReq service
          route w r st)
  /\ exists response : Response,
      handlers.Written (fst served) = [response]
      /\ handlers.Code (fst served) = Some (Status response).
Proof.
  intros Hw served. subst served.
  unfold middleware.RunRouter, middleware.RateLimiterMiddleware, middleware.Allow.
  cbn [fst snd].
  destruct (limiter 0%nat); cbn [negb].
  - split; [ discriminate | ]. split.
    + intros _.
      now destruct (handlers.ServeHTTP uuid_Parse Decode_SubReq Decode_GetSummaryReq
                      service route w r st).
    + destruct route; cbn [handlers.ServeHTTP];
        unfold handlers.CreateSubs, handlers.GetSubs, handlers.UpdateSubs,
          handlers.DeleteSubs, handlers.GetSummary, handlers.ListSubs;
        handler_facts.handler_cases; cbn [fst];
        match goal with
        | |- context [handlers.sendResponse w ?d ?m ?s] =>
            destruct (handler_facts.sendResponse_untouched w d m s Hw)
              as [Hcode Hbody];
            rewrite Hcode, Hbody; eexists; split; reflexivity
        end.
  - destruct Hw as [Hcode Hbody].
    unfold handlers.Encode, handlers.WriteHeader, handlers.Header_Set.
    cbn [handlers.Code handlers.Written handlers.Header fst snd].
    rewrite Hcode. cbn [handlers.Code handlers.Written handlers.Header].
    rewrite Hbody. cbn [app].
    split; [ intros _; repeat split | ].
    split; [ discriminate | ].
    eexists. split; reflexivity.
Qed.

Lemma rate_limited_chain_witness :
  handlers.Code
    (fst (middleware.RunRouter sample.uuid_Parse sample.Decode_SubReq
            sample.Decode_GetSummaryReq sample.stack handlers.POST_subscriptions
            handlers.NewRecorder (handlers.mkRequest [] "netflix")
            (fun n => Nat.eqb n 1, handlers.mkWorld sample.two_rows (fun _ => 5%N))))
  = Some 429.
Proof.
  apply (proj1 (rate_limited_chain sample.uuid_Parse sample.Decode_SubReq
                  sample.Decode_GetSummaryReq sample.stack handlers.POST_subscriptions
                  handlers.NewRecorder (handlers.mkRequest [] "netflix")
                  (fun n => Nat.eqb n 1)
                  (handlers.mkWorld sample.two_rows (fun _ => 5%N))
                  (conj eq_refl eq_refl))).
  reflexivity.
Defined.

(** X24. With the SQL repository and when the round trip does not fail,
    the summary route answers a decodable request whose service name is
    an ASCII text without NUL with 200 and the sum of the prices
    of the rows counted for the bounds as the service formats them; a
    request with zero timestamps, no user and an empty service name is
    answered with the sum of all the prices. *)
Theorem summary_route_totals
    (Decode_GetSummaryReq : string -> option GetSummaryReq)
    (text_le : string -> string -> bool) (schema_ok : list Subscription -> bool)
    (r : handlers.Request) (sumReq : GetSummaryReq) (rows : list Subscription)
    (rand : nat -> N) :
  Decode_GetSummaryReq (handlers.Body r) = Some sumReq ->
  migrations.ascii_text (sreq_ServiceName sumReq) = true ->
  let answered :=
    fst (handlers.GetSummary Decode_GetSummaryReq
           (handlers.SubscriptionService (service.Repository text_le schema_ok))
           handlers.NewRecorder r (handlers.mkWorld (repository.mkDB rows []) rand)) in
  (exists selects : Subscription -> bool,
      (forall row,
          selects row = true
          <-> spec.counted text_le
                (if time.IsZero (sreq_From sumReq) then ""
                 else time.Format_01_2006 (sreq_From sumReq))
                (if time.IsZero (sreq_To sumReq) then ""
                 else time.Format_01_2006 (sreq_To sumReq))
                (sreq_UserID sumReq) (sreq_ServiceName sumReq) row)
      /\ answered
         = handlers.sendResponse handlers.NewRecorder
             (DataTotal (fold_right Z.add 0 (map Price (filter selects rows))))
             "Successfully get summary" 200)
  /\ (time.IsZero (sreq_From sumReq) = true ->
      time.IsZero (sreq_To sumReq) = true ->
      sreq_UserID sumReq = None ->
      sreq_ServiceName sumReq = "" ->
      answered
      = handlers.sendResponse handlers.NewRecorder
          (DataTotal (fold_right Z.add 0 (map Price rows)))
          "Successfully get summary" 200).
Proof.
  intros Hdec _ answered. subst answered.
  unfold handlers.GetSummary. rewrite Hdec.
  unfold handlers.call, handlers.SubscriptionService, service.GetSummary,
    service.Repository, repository.GetSummary.
  cbn [handlers.s_GetSummary service.r_GetSummary handlers.svc_state
         repository.round_trip repository.outages repository.table fst snd].
  rewrite repository_facts.COALESCE_SUM.
  split.
  - eexists. split; [ | reflexivity ].
    intro row.
    rewrite (repository_facts.summary_where_counted text_le
               (service.summary_of_req sumReq) row).
    unfold service.summary_of_req. cbn [From To sum_UserID sum_ServiceName].
    destruct (time.IsZero (sreq_From sumReq)), (time.IsZero (sreq_To sumReq));
      reflexivity.
  - intros Hfrom Hto Huser Hname.
    unfold handlers.StatusOK. do 4 f_equal.
    apply filter_all. intros row _.
    unfold service.summary_of_req, repository.summary_where.
    cbn [From To sum_UserID sum_ServiceName].
    now rewrite Hfrom, Hto, Huser, Hname.
Qed.

Lemma summary_route_totals_witness :
  fst (handlers.GetSummary
         (fun _ => Some (mkGetSummaryReq "" time.zero time.zero None))
         (handlers.SubscriptionService
            (service.Repository sample.text_le migrations.schema))
         handlers.NewRecorder (handlers.mkRequest [] "nothing")
         (handlers.mkWorld sample.two_rows (fun _ => 5%N)))
  = handlers.sendResponse handlers.NewRecorder (DataTotal 415)
      "Successfully get summary" 200.
Proof.
  apply (proj2 (summary_route_totals
                  (fun _ => Some (mkGetSummaryReq "" time.zero time.zero None))
                  sample.text_le migrations.schema (handlers.mkRequest [] "nothing")
                  (mkGetSummaryReq "" time.zero time.zero None)
                  [sample.row1; sample.row2] (fun _ => 5%N) eq_refl eq_refl));
    reflexivity.
Defined.

(** X25. With the SQL repository and a reachable store, when a row has
    the id of an update request, the payload passes validation and the
    schema accepts the new values, the request is answered 200 with an
    entity that carries the generated id and the user of the payload,
    whereas a fetch of the id then returns the row under its own id and
    with its own user, and with the service name, price and dates of the
    payload. *)
Theorem update_then_fetch
    (uuid_Parse : string -> option UUID)
    (Decode_SubReq : string -> option SubReq)
    (text_le : string -> string -> bool) (schema_ok : list Subscription -> bool)
    (r : handlers.Request) (id : UUID) (sub : SubReq) (old : Subscription)
    (rows : list Subscription) (rand : nat -> N) :
  handlers.Query_Get (handlers.URL_Query r) "id" <> "" ->
  uuid_Parse (handlers.Query_Get (handlers.URL_Query r) "id") = Some id ->
  Decode_SubReq (handlers.Body r) = Some sub ->
  snd (snd (handlers.validateSubReq sub)) = None ->
  find (fun row => uuid_eqb (ID row) id) rows = Some old ->
  schema_ok
    (repository.update_stmt (req_ServiceName sub) (req_Price sub)
       (req_StartDate sub) (req_EndDate sub) id rows) = true ->
  let stack := handlers.SubscriptionService (service.Repository text_le schema_ok) in
  let updated :=
    handlers.UpdateSubs uuid_Parse Decode_SubReq stack handlers.NewRecorder r
      (handlers.mkWorld (repository.mkDB rows []) rand) in
  fst updated
  = handlers.sendResponse handlers.NewRecorder
      (DataSubscription
         (mkSubscription (handlers.uuid_v4 (rand 0%nat)) (req_ServiceName sub)
            (req_Price sub) (req_UserID sub) (req_StartDate sub) (req_EndDate sub)))
      "Successfully updated subscription" 200
  /\ fst (handlers.GetSubs uuid_Parse stack handlers.NewRecorder r (snd updated))
     = handlers.sendResponse handlers.NewRecorder
         (DataSubscription
            (mkSubscription id (req_ServiceName sub) (req_Price sub) (UserID old)
               (req_StartDate sub) (req_EndDate sub)))
         "Successfully get subscriptions" 200.
Proof.
  intros Hid Hparse Hdec Hvalid Hfind Hschema stack updated. subst updated stack.
  destruct (validateSubReq_accepted sub Hvalid) as (Hv & _).
  assert (Hex : existsb (fun row => uuid_eqb (ID row) id) rows = true).
  { apply existsb_exists. exists old. now apply find_some in Hfind. }
  unfold handlers.UpdateSubs, handlers.GetSubs.
  apply String.eqb_neq in Hid. rewrite Hid, Hparse, Hdec, Hv.
  unfold handlers.uuid_New, handlers.call, handlers.SubscriptionService,
    service.SubscriptionExists, service.UpdateSubs, service.GetSub,
    service.Repository, repository.SubscriptionExists, repository.UpdateSubs,
    repository.GetSub.
  cbn [handlers.s_SubscriptionExists handlers.s_UpdateSubs handlers.s_GetSub
         service.r_SubscriptionExists service.r_UpdateSubs service.r_GetSub
         handlers.svc_state handlers.rand repository.round_trip repository.outages
         repository.table ServiceName Price StartDate EndDate].
  rewrite Hex. cbn [negb orb].
  rewrite Hschema. cbn [negb andb fst snd handlers.svc_state repository.round_trip
                          repository.outages repository.table].
  split; [ reflexivity | ].
  rewrite (find_update_stmt _ _ _ _ _ _ _ Hfind).
  unfold repository.update_set.
  apply find_some in Hfind. destruct Hfind as [_ Heq].
  apply N.eqb_eq in Heq. now rewrite Heq.
Qed.

Lemma update_then_fetch_witness :
  fst (handlers.GetSubs sample.uuid_Parse
         (handlers.SubscriptionService
            (service.Repository sample.text_le migrations.schema))
         handlers.NewRecorder (sample.put "00000000-0000-0000-0000-000000000002" "netflix")
         (snd (handlers.UpdateSubs sample.uuid_Parse sample.Decode_SubReq
                 (handlers.SubscriptionService
                    (service.Repository sample.text_le migrations.schema))
                 handlers.NewRecorder
                 (sample.put "00000000-0000-0000-0000-000000000002" "netflix")
                 (handlers.mkWorld (repository.mkDB [sample.row1; sample.row2] [])
                    (fun _ => 5%N)))))
  = handlers.sendResponse handlers.NewRecorder
      (DataSubscription (mkSubscription 2%N "Netflix" 15 9%N "01-2025" None))
      "Successfully get subscriptions" 200.
Proof.
  apply (proj2 (update_then_fetch sample.uuid_Parse sample.Decode_SubReq
                  sample.text_le migrations.schema
                  (sample.put "00000000-0000-0000-0000-000000000002" "netflix")
                  2%N sample.netflix sample.row2 [sample.row1; sample.row2]
                  (fun _ => 5%N) ltac:(discriminate) eq_refl eq_refl eq_refl eq_refl
                  eq_refl)).
Defined.
